(** * telnetlogger: the NVT line reader, the credential printers and the
    per-connection session of [telnetlogger.c], embedded in Rocq.

    Conventions of the embedding.
    - A C [int] is a [Z]; none of the counters of the program can leave the
      range of an [int] ([offset] stays below [sizeof_buf], [tries] below 7).
    - A byte ([char], [unsigned char]) is the [Z] of its bit pattern, 0..255.
      The program only compares bytes with constants below 128 or masks them
      with [0xFF], so the signedness of [char] plays no role.
    - A [char] array is a [list Z]; [buf[i] = c] is stdpp's list insert.
    - A connected socket is the list of the results the successive calls
      of [recv(fd, &c, 1, flags)] will give, together with the bytes handed
      to [send].
    - A [FILE *] is an [option] of the bytes written so far ([None] is the
      [NULL] stream). The [output] mutex serialises whole lines of several
      threads; one session is sequential and the lock is not modelled. *)

From Stdlib Require Import ZArith Lia Bool String Ascii.
From stdpp Require Import base tactics list numbers.

Open Scope Z_scope.

(** ** Bytes and string literals *)

Definition byte_of_ascii (a : ascii) : Z := Z.of_nat (nat_of_ascii a).

(** The bytes of a C string literal without escapes. *)
Definition str (s : string) : list Z := map byte_of_ascii (list_ascii_of_string s).

(** [strlen] of a literal without an embedded NUL. *)
Definition strlen (s : list Z) : Z := Z.of_nat (length s).

(** ** The socket *)

(** What one [recv(fd, &c, 1, flags)] gives: one byte ([len = 1]), an orderly
    shutdown by the peer ([len = 0]), or a failure such as the receive
    time-out ([len = -1]). *)
Inductive recv_result : Type :=
  | RecvByte (c : Z)
  | RecvClosed
  | RecvError.

(** The [len] that [recv] returns. *)
Definition recv_len (r : recv_result) : Z :=
  match r with
  | RecvByte _ => 1
  | RecvClosed => 0
  | RecvError => -1
  end.

(** The bytes a client sends, as successive [recv] results. *)
Definition bytes (bs : list Z) : list recv_result := map RecvByte bs.

(** ** recv_nvt_line *)

(** The variables of [recv_nvt_line] that its loop updates: the locals
    [offset], [state] and [done], the caller's [buf], the bytes passed to
    [send] on [fd], and what the function wrote on [stderr]. *)
Record nvt : Type := Nvt {
  offset : Z;
  state : Z;
  done : bool;
  buf : list Z;
  sent : list Z;
  diag : list Z
}.

Definition set_state (s : Z) (l : nvt) : nvt :=
  Nvt (offset l) s (done l) (buf l) (sent l) (diag l).

Definition set_done (l : nvt) : nvt :=
  Nvt (offset l) (state l) true (buf l) (sent l) (diag l).

Definition set_offset (o : Z) (l : nvt) : nvt :=
  Nvt o (state l) (done l) (buf l) (sent l) (diag l).

(** [send(fd, data, n, flags)]; the result of [send] is never looked at. *)
Definition send (data : list Z) (l : nvt) : nvt :=
  Nvt (offset l) (state l) (done l) (buf l) (sent l ++ data) (diag l).

(** [fprintf(stderr, ...)]. *)
Definition eprint (data : list Z) (l : nvt) : nvt :=
  Nvt (offset l) (state l) (done l) (buf l) (sent l) (diag l ++ data).

(** [buf[offset++] = c]. *)
Definition push (c : Z) (l : nvt) : nvt :=
  Nvt (offset l + 1) (state l) (done l)
      (<[Z.to_nat (offset l) := c]> (buf l)) (sent l) (diag l).

(** [if (offset + 1 < sizeof_buf) buf[offset++] = c;] *)
Definition push_if_room (sizeof_buf c : Z) (l : nvt) : nvt :=
  if offset l + 1 <? sizeof_buf then push c l else l.

(** The echo of an appended byte in state 0: caret notation up to 26. *)
Definition echo (c : Z) : list Z :=
  if c <=? 26 then [94; c + 65 - 1] else [c].

(** The erase sequence ["\b \b"]. *)
Definition erase : list Z := [8; 32; 8].

(** [case 0: case 1:] of the switch. *)
Definition nvt_normal (sizeof_buf c : Z) (l : nvt) : nvt :=
  if c =? 255 then set_state 2 l
  else if c =? 0 then l
  else if c =? 10 then l
  else if c =? 13 then set_done l
  else if c =? 127 then
    if offset l =? 0 then l
    else
      let l1 := set_offset (offset l - 1) l in
      if state l =? 0 then send erase l1 else l1
  else
    let l1 := if offset l + 1 <? sizeof_buf then push c l else set_done l in
    let l2 := if state l =? 0 then send (echo c) l1 else l1 in
    if (c =? 3) || (c =? 4) then set_done l2 else l2.

(** [case 2:], the byte after IAC. *)
Definition nvt_iac (sizeof_buf c : Z) (l : nvt) : nvt :=
  if c =? 250 then set_state 20 l
  else if c =? 251 then set_state 3 l
  else if c =? 252 then set_state 4 l
  else if c =? 253 then set_state 5 l
  else if c =? 254 then set_state 6 l
  else if c =? 255 then set_state 0 (push_if_room sizeof_buf 255 l)
  else set_state 0 l.

(** The body of the [while] loop after a byte [c] was received: the switch
    on [state]. *)
Definition nvt_byte (sizeof_buf c : Z) (l : nvt) : nvt :=
  let s := state l in
  if (s =? 0) || (s =? 1) then nvt_normal sizeof_buf c l
  else if s =? 2 then nvt_iac sizeof_buf c l
  else if s =? 20 then (if c =? 255 then set_state 21 l else l)
  else if s =? 21 then (if c =? 240 then set_state 0 l else set_state 20 l)
  else if (s =? 3) || (s =? 4) || (s =? 5) || (s =? 6) then set_state 0 l
  else set_state 0 (eprint (str "err,internal error,unknown state" ++ [10]) l).

(** What a call gives back: the returned [int], the caller's [buf] and
    [*in_state] after the call, the bytes sent, the [recv] results not yet
    consumed, and the [stderr] output. *)
Record nvt_result : Type := NvtResult {
  ret : Z;
  buf_out : list Z;
  state_out : Z;
  sent_out : list Z;
  rest_out : list recv_result;
  diag_out : list Z
}.

(** Leaving through the bottom of the function:
    [*in_state = state; return offset;]. *)
Definition nvt_return (l : nvt) (rest : list recv_result) : nvt_result :=
  NvtResult (offset l) (buf l) (state l) (sent l) rest (diag l).

(** The two tests on a [len] that is not positive. *)
Definition nvt_no_byte (len in_state : Z) (l : nvt) (rest : list recv_result)
  : nvt_result :=
  if len <? 0 then
    NvtResult (-1) (buf l) in_state (sent l) rest (diag l)
  else if offset l =? 0 then
    NvtResult len (buf l) (state l) (sent l) rest (diag l)
  else nvt_return l rest.

(** The [while (!done)] loop. A socket whose list of results is used up
    is a closed one: [recv] gives 0. *)
Fixpoint nvt_loop (sizeof_buf in_state : Z) (incoming : list recv_result)
    (l : nvt) {struct incoming} : nvt_result :=
  if done l then nvt_return l incoming
  else
    match incoming with
    | [] => nvt_no_byte 0 in_state l []
    | RecvByte c :: rest =>
        nvt_loop sizeof_buf in_state rest (nvt_byte sizeof_buf c l)
    | r :: rest => nvt_no_byte (recv_len r) in_state l rest
    end.

(** The locals at the top of the function. *)
Definition nvt_init (buf : list Z) (in_state : Z) (sent diag : list Z) : nvt :=
  Nvt 0 in_state false buf sent diag.

(** [recv_nvt_line(fd, buf, sizeof_buf, flags, &in_state)] on a socket with
    [incoming] still to come and [sent] already sent. *)
Definition recv_nvt_line (incoming : list recv_result) (sent : list Z)
    (buf : list Z) (sizeof_buf : Z) (in_state : Z) (diag : list Z)
  : nvt_result :=
  nvt_loop sizeof_buf in_state incoming (nvt_init buf in_state sent diag).

(** The line a call hands to its caller: the first [ret] bytes of [buf]. *)
Definition line (r : nvt_result) : list Z := take (Z.to_nat (ret r)) (buf_out r).

(** The bytes accumulated so far, inside the loop. *)
Definition content (l : nvt) : list Z := take (Z.to_nat (offset l)) (buf l).

(** The loop body over the bytes [bs], stopping where [done] is set. *)
Fixpoint nvt_run (sizeof_buf : Z) (bs : list Z) (l : nvt) : nvt :=
  if done l then l
  else
    match bs with
    | [] => l
    | c :: bs' => nvt_run sizeof_buf bs' (nvt_byte sizeof_buf c l)
    end.

(** A caller's buffer before anything was stored in it. *)
Definition blank (n : nat) : list Z := replicate n 0.

(** ** The credential printers *)

(** [isprint] of the C library in the "C" locale (the program never calls
    [setlocale]): the bytes from space to tilde. *)
Definition isprint (c : Z) : bool := (32 <=? c) && (c <=? 126).

(** One digit of [%x]. *)
Definition hex_digit (d : Z) : Z := if d <? 10 then 48 + d else 87 + d.

(** [fprintf(fp, "\\x%02x", v)] for [v] in 0..255. *)
Definition hex_escape (v : Z) : list Z :=
  [92; 120; hex_digit (v / 16); hex_digit (v mod 16)].

(** The test of [print_string] on one [char]. *)
Definition is_blacklisted (c : Z) : bool :=
  negb (isprint (Z.land c 255)) || (c =? 92) || (c =? 60) || (c =? 39)
  || (c =? 32) || (c =? 34) || (c =? 44).

(** What [print_string] writes for one [char]. *)
Definition print_char (c : Z) : list Z :=
  if is_blacklisted c then hex_escape (Z.land c 255) else [c].

(** [print_string(fp, str, len)]: the stream after the call. [len] is never
    larger than the array in the program. *)
Definition print_string (fp : list Z) (s : list Z) (len : Z) : list Z :=
  foldl (fun out c => out ++ print_char c) fp (take (Z.to_nat len) s).

(** [matches(rhs, lhs, len)], [rhs] a literal. *)
Definition matches (rhs lhs : list Z) (len : Z) : bool :=
  (strlen rhs =? len)
  && bool_decide (take (Z.to_nat len) rhs = take (Z.to_nat len) lhs).

(** [print_passwords(fp, login, login_len, password, password_len)]. *)
Definition print_passwords (fp : option (list Z)) (login : list Z) (login_len : Z)
    (password : list Z) (password_len : Z) : option (list Z) :=
  match fp with
  | None => None
  | Some out =>
      if matches (str "shell") login login_len
         && matches (str "sh") password password_len then Some out
      else if matches (str "enable") login login_len
         && matches (str "system") password password_len then Some out
      else
        let out1 := print_string out login login_len in
        let out2 := out1 ++ str " " in
        let out3 := print_string out2 password password_len in
        Some (out3 ++ [10])
  end.

(** [print_csv(fp, hostname, login, login_len, password, password_len)]. *)
Definition print_csv (fp : option (list Z)) (hostname : list Z) (login : list Z)
    (login_len : Z) (password : list Z) (password_len : Z) : option (list Z) :=
  match fp with
  | None => None
  | Some out =>
      let out1 := out ++ hostname ++ str "," in
      let out2 := print_string out1 login login_len in
      let out3 := out2 ++ str "," in
      let out4 := print_string out3 password password_len in
      Some (out4 ++ [10])
  end.

(** ** handle_connection *)

(** What a session can touch: its socket, the process's [stdout] and
    [stderr], and whether [closesocket] was called. The reason text that
    [error_msg] derives from [errno] is left out of the [recv,...] line. *)
Record world : Type := World {
  incoming : list recv_result;
  outgoing : list Z;
  stdout : option (list Z);
  stderr : list Z;
  closed : bool
}.

Definition hello_first : list Z :=
  [255; 251; 3] ++ [255; 251; 1] ++ [255; 253; 31] ++ [255; 253; 24]
  ++ [13; 10] ++ str "login: ".

Definition hello_again : list Z := [13; 10] ++ str "login: ".

Definition password_prompt : list Z := [13; 10] ++ str "Password: ".

Definition login_incorrect : list Z := [13; 10] ++ str "Login incorrect" ++ [13; 10].

(** The label [end:]. *)
Definition session_end (peername : list Z) (w : world) : world :=
  World (incoming w) (outgoing w) (stdout w)
        (stderr w ++ str "close," ++ peername ++ [10]) true.

(** The label [error:]. *)
Definition session_error (peername : list Z) (w : world) : world :=
  session_end peername
    (World (incoming w) (outgoing w) (stdout w)
           (stderr w ++ str "recv," ++ peername ++ [10]) (closed w)).

(** A call of [recv_nvt_line] on the session's socket. *)
Definition session_recv (w : world) (buf : list Z) (in_state : Z) : nvt_result :=
  recv_nvt_line (incoming w) (outgoing w) buf 256 in_state (stderr w).

Definition after_recv (w : world) (r : nvt_result) : world :=
  World (rest_out r) (sent_out r) (stdout w) (diag_out r) (closed w).

Definition session_send (data : list Z) (w : world) : world :=
  World (incoming w) (outgoing w ++ data) (stdout w) (stderr w) (closed w).

(** The code from the label [again:] on, with the locals [hello], [state],
    [tries], [login] and [password] as they are when control reaches the
    label. [fuel] bounds the number of passes through the label. *)
Fixpoint session (fuel : nat) (peername hello : list Z) (state tries : Z)
    (login password : list Z) (w : world) : option world :=
  match fuel with
  | O => None
  | S fuel' =>
      let w1 := session_send hello w in
      let r1 := session_recv w1 login state in
      let w2 := after_recv w1 r1 in
      let login_length := ret r1 in
      if login_length <=? 0 then Some (session_error peername w2)
      else
        let w3 := session_send password_prompt w2 in
        let state1 := if state_out r1 =? 0 then 1 else state_out r1 in
        let r2 := session_recv w3 password state1 in
        let w4 := after_recv w3 r2 in
        let password_length := ret r2 in
        if password_length <=? 0 then Some (session_error peername w4)
        else
          let w5 :=
            World (incoming w4) (outgoing w4)
                  (print_csv (stdout w4) peername (buf_out r1) login_length
                             (buf_out r2) password_length)
                  (stderr w4) (closed w4) in
          let state2 := if state_out r2 =? 1 then 0 else state_out r2 in
          let w6 := session_send login_incorrect w5 in
          if tries <? 5 then
            session fuel' peername hello_again state2 (tries + 1)
                    (buf_out r1) (buf_out r2) w6
          else Some (session_end peername w6)
  end.

(** [handle_connection(args)] for a thread whose [args->peername] is
    [peername], on a fresh socket. [login] and [password] are the two
    256-byte arrays of the stack frame. *)
Definition handle_connection (peername : list Z) (login password : list Z)
    (w : world) : option world :=
  session 6 peername hello_first 0 0 login password w.

(** A new connection: nothing sent yet, both streams empty. *)
Definition connect (client : list recv_result) : world :=
  World client [] (Some []) [] false.

(** How often [needle] occurs in [hay]. *)
Fixpoint occurrences (needle hay : list Z) : nat :=
  match hay with
  | [] => 0%nat
  | _ :: hay' =>
      ((if bool_decide (take (length needle) hay = needle) then 1 else 0)
       + occurrences needle hay')%nat
  end.

(** A byte that the Normal states append and do nothing else with: not IAC,
    NUL, LF, CR, DEL, Ctrl-C or Ctrl-D. *)
Definition plain (c : Z) : Prop :=
  c ≠ 255 ∧ c ≠ 0 ∧ c ≠ 10 ∧ c ≠ 13 ∧ c ≠ 127 ∧ c ≠ 3 ∧ c ≠ 4.

(** The four bytes the content-preservation property of the specification
    excludes. *)
Definition unreserved (c : Z) : Prop := c ≠ 255 ∧ c ≠ 13 ∧ c ≠ 10 ∧ c ≠ 0.

(** The states 0 and 1. *)
Definition normal (s : Z) : Prop := s = 0 ∨ s = 1.

(** What the client sees of the bytes [bs] appended in state [s]. *)
Definition echoes (s : Z) (bs : list Z) : list Z :=
  if s =? 0 then flat_map echo bs else [].

(** A byte that the Normal states treat as content: anything but IAC, NUL,
    LF, CR and DEL (Ctrl-C and Ctrl-D are content that also ends the line). *)
Definition literal (c : Z) : Prop :=
  c ≠ 255 ∧ c ≠ 0 ∧ c ≠ 10 ∧ c ≠ 13 ∧ c ≠ 127.

(** The states inside a telnet command: everything but 0 and 1. *)
Definition negotiating (s : Z) : Prop := s ≠ 0 ∧ s ≠ 1.

(** The payload of a subnegotiation holds no IAC immediately followed by SE:
    the IAC SE after it is the first one. *)
Fixpoint no_iac_se (p : list Z) : bool :=
  match p with
  | [] => true
  | a :: tl => negb ((a =? 255) && (hd 0 tl =? 240)) && no_iac_se tl
  end.

(** IAC SB payload IAC SE. *)
Definition subneg (payload : list Z) : list Z :=
  [255; 250] ++ payload ++ [255; 240].

(** The sanitizer in the words of its description: a byte is escaped when
    it is not printable (below space or above tilde) or is one of backslash,
    [<], single quote, double quote, space and comma; the escape is a
    backslash, [x] and two lower-case hexadecimal digits. *)
Definition spec_escaped (c : Z) : bool :=
  (c <? 32) || (126 <? c) || existsb (Z.eqb c) [92; 60; 39; 34; 32; 44].

Definition spec_hex (c : Z) : list Z :=
  let digits := str "0123456789abcdef" in
  [nth (Z.to_nat (c / 16)) digits 0; nth (Z.to_nat (c mod 16)) digits 0].

Definition spec_render (c : Z) : list Z :=
  if spec_escaped c then [92; 120] ++ spec_hex c else [c].

Definition sanitized (s : list Z) : list Z := flat_map spec_render s.

(** Whether [l] ends with [tail]. *)
Definition ends_with (tail l : list Z) : bool :=
  bool_decide (drop (length l - length tail) l = tail).

(** What a client sends to answer both prompts of one attempt. *)
Definition attempt (up : list Z * list Z) : list Z :=
  up.1 ++ [13] ++ up.2 ++ [13].

(** An attempt that both reads take as it is: plain bytes, not empty, and
    short enough for the 256-byte arrays. *)
Definition plain_attempt (up : list Z * list Z) : Prop :=
  Forall plain up.1 ∧ Forall plain up.2 ∧ up.1 ≠ [] ∧ up.2 ≠ []
  ∧ Z.of_nat (length up.1) < 256 ∧ Z.of_nat (length up.2) < 256.

(** What the server sends over a run of attempts that all jump back to
    [again:], the first one greeted with [hello]. *)
Fixpoint transcript (hello : list Z) (ups : list (list Z * list Z)) : list Z :=
  match ups with
  | [] => []
  | up :: ups' =>
      hello ++ flat_map echo up.1 ++ password_prompt ++ login_incorrect
      ++ transcript hello_again ups'
  end.

(** The lines [print_csv] writes for a run of attempts. *)
Definition records (peername : list Z) (fp : option (list Z))
    (ups : list (list Z * list Z)) : option (list Z) :=
  foldl (fun fp up => print_csv fp peername up.1 (Z.of_nat (length up.1))
                        up.2 (Z.of_nat (length up.2))) fp ups.

(** The states the switch of [recv_nvt_line] has a case for. *)
Definition known_state (s : Z) : Prop :=
  s = 0 ∨ s = 1 ∨ s = 2 ∨ s = 3 ∨ s = 4 ∨ s = 5 ∨ s = 6 ∨ s = 20 ∨ s = 21.

(** A [recv] result other than the byte IAC. *)
Definition not_iac (r : recv_result) : Prop := r ≠ RecvByte 255.

(** A value that fits a [char]. *)
Definition is_byte (c : Z) : Prop := 0 <= c < 256.

(** A byte a log consumer can take at face value: printable, not a space,
    and none of [<], single quote, double quote and comma. *)
Definition harmless (c : Z) : Prop :=
  33 <= c <= 126 ∧ c ≠ 60 ∧ c ≠ 39 ∧ c ≠ 34 ∧ c ≠ 44.

(** The value of a lower-case hexadecimal digit. *)
Definition unhex (d : Z) : Z := if d <? 58 then d - 48 else d - 87.

(** Reading a sanitized field back: a backslash opens an escape of four
    bytes, every other byte stands for itself. The program has no such
    function; it is the inverse against which [print_string] is measured. *)
Fixpoint unescape (out : list Z) : list Z :=
  match out with
  | [] => []
  | c :: rest =>
      if c =? 92 then
        match rest with
        | _ :: h :: l :: rest' => unhex h * 16 + unhex l :: unescape rest'
        | _ => []
        end
      else c :: unescape rest
  end.

(** The pairs [print_passwords] keeps out of its output. *)
Definition suppressed (login password : list Z) : bool :=
  bool_decide ((login = str "shell" ∧ password = str "sh")
               ∨ (login = str "enable" ∧ password = str "system")).

(** ** main *)

(** How [main] ends: [exit(status)] after a message on [stderr], or the
    call [daemon_thread(port)]. *)
Inductive startup : Type :=
  | Exit (status : Z) (message : list Z)
  | Serve (port : Z).

(** [s[i]] for a C string [s]: past its last byte stands the NUL. [main]
    never looks further. *)
Definition char_at (s : list Z) (i : nat) : Z := nth i s 0.

(** [isdigit] of the C library. *)
Definition isdigit (c : Z) : bool := (48 <=? c) && (c <=? 57).

Section Main.

(** [strtoul(arg, 0, 0)] of the C library. *)
Variable strtoul : list Z → Z.

(** The range test on the argument of [-l] and the assignment to [port];
    [next] is the rest of the loop. *)
Definition set_port (arg : list Z) (next : Z → startup) : startup :=
  if (strtoul arg <? 1) || (65535 <? strtoul arg)
  then Exit 1 (str "startup,expected port number between 1..65535" ++ [10])
  else next (strtoul arg).

(** The [for] loop over [argv[i]], [i >= 1], with the current [port]. *)
Fixpoint main_loop (args : list (list Z)) (port : Z) : startup :=
  match args with
  | [] => Serve port
  | a :: rest =>
      if negb (char_at a 0 =? 45)
      then Exit 1 (str "startup,unknown parameter: " ++ a ++ [10])
      else if char_at a 1 =? 108 then
        if isdigit (char_at a 2) then set_port (drop 2 a) (main_loop rest)
        else
          match rest with
          | [] => Exit 1 (str "startup,expected parameter after -i" ++ [10])
          | b :: rest' => set_port b (main_loop rest')
          end
      else if (char_at a 1 =? 104) || (char_at a 1 =? 63) || (char_at a 1 =? 72)
      then Exit 1 (str "usage:" ++ [10] ++ str " telnetlogger [-l port]" ++ [10])
      else main_loop rest port
  end.

(** [main(argc, argv)]. *)
Definition main (argv : list (list Z)) : startup := main_loop (tail argv) 23.

End Main.

(** What [strtoul(s, 0, 0)] gives for a string of decimal digits that does
    not start with 0; used where a property is tried on an example. *)
Definition decimal (s : list Z) : Z := foldl (fun n c => 10 * n + (c - 48)) 0 s.

(** ** The name of the peer in daemon_thread *)

(** The C string held by a [char] array: the bytes before the first NUL. *)
Fixpoint cstring (buf : list Z) : list Z :=
  match buf with
  | [] => []
  | c :: tl => if c =? 0 then [] else c :: cstring tl
  end.

(** [memmove(buf, buf + off, n)]. *)
Definition memmove_front (buf : list Z) (off n : nat) : list Z :=
  take n (drop off buf) ++ drop n buf.

(** The two lines of [daemon_thread] after [getnameinfo]:
    [if (memcmp(peername, "::ffff:", 7) == 0)
       memmove(peername, peername + 7, strlen(peername + 7) + 1);] *)
Definition strip_mapped (peername : list Z) : list Z :=
  if bool_decide (take 7 peername = str "::ffff:")
  then memmove_front peername 7 (length (cstring (drop 7 peername)) + 1)
  else peername.

(** * Properties *)

(** ** The loop and its body *)

Ltac zbool :=
  repeat match goal with
  | |- context [(?a =? ?b)] =>
      first [ rewrite (proj2 (Z.eqb_eq a b)) by lia
            | rewrite (proj2 (Z.eqb_neq a b)) by lia ]
  | |- context [(?a <? ?b)] =>
      first [ rewrite (proj2 (Z.ltb_lt a b)) by lia
            | rewrite (proj2 (Z.ltb_ge a b)) by lia ]
  | |- context [(?a <=? ?b)] =>
      first [ rewrite (proj2 (Z.leb_le a b)) by lia
            | rewrite (proj2 (Z.leb_gt a b)) by lia ]
  end.

Section Loop.

(** The size of the caller's buffer, fixed during a call. *)
Variable sz : Z.

Lemma nvt_run_done bs l : done l = true → nvt_run sz bs l = l.
Proof. intros H. destruct bs; simpl; rewrite H; reflexivity. Qed.

Lemma nvt_run_cons c bs l :
  done l = false → nvt_run sz (c :: bs) l = nvt_run sz bs (nvt_byte sz c l).
Proof. intros H. simpl. rewrite H. reflexivity. Qed.

Lemma nvt_run_app bs1 bs2 l :
  nvt_run sz (bs1 ++ bs2) l = nvt_run sz bs2 (nvt_run sz bs1 l).
Proof.
  revert l. induction bs1 as [|c bs1 IH]; intros l.
  - simpl. destruct (done l); reflexivity.
  - simpl. destruct (done l) eqn:E.
    + symmetry. apply nvt_run_done. exact E.
    + apply IH.
Qed.

(** While the bytes received do not complete the line, the loop is the
    loop body run over them. *)
Lemma nvt_loop_bytes ins bs rest l :
  done (nvt_run sz bs l) = false →
  nvt_loop sz ins (bytes bs ++ rest) l = nvt_loop sz ins rest (nvt_run sz bs l).
Proof.
  revert l. induction bs as [|c bs IH]; intros l H.
  - simpl in *. destruct (done l); reflexivity.
  - simpl in *. destruct (done l) eqn:E; [congruence|].
    apply IH. exact H.
Qed.

Lemma nvt_loop_finished ins incoming l :
  done l = true → nvt_loop sz ins incoming l = nvt_return l incoming.
Proof. intros H. destruct incoming; simpl; rewrite H; reflexivity. Qed.

(** The loop body on a plain byte in a Normal state. *)
Lemma nvt_byte_plain c l :
  normal (state l) → plain c →
  nvt_byte sz c l =
    let l1 := if offset l + 1 <? sz then push c l else set_done l in
    if state l =? 0 then send (echo c) l1 else l1.
Proof.
  intros Hs (H1 & H2 & H3 & H4 & H5 & H6 & H7).
  unfold nvt_byte, nvt_normal.
  replace ((state l =? 0) || (state l =? 1)) with true
    by (destruct Hs as [-> | ->]; reflexivity).
  zbool. reflexivity.
Qed.

Lemma content_push c l :
  0 <= offset l → (Z.to_nat (offset l) < length (buf l))%nat →
  content (push c l) = content l ++ [c].
Proof.
  intros H0 Hlen. unfold content, push. simpl.
  replace (Z.to_nat (offset l + 1)) with (S (Z.to_nat (offset l))) by lia.
  rewrite (take_S_r _ _ c) by (apply list_lookup_insert_eq; exact Hlen).
  rewrite take_insert_ge by lia. reflexivity.
Qed.

(** Plain bytes that fit are appended one by one, and echoed in state 0. *)
Lemma nvt_run_plain bs : ∀ l,
  normal (state l) → done l = false → Forall plain bs →
  0 <= offset l → offset l + Z.of_nat (length bs) < sz →
  sz <= Z.of_nat (length (buf l)) →
  let l' := nvt_run sz bs l in
  offset l' = offset l + Z.of_nat (length bs) ∧ state l' = state l
  ∧ done l' = false ∧ content l' = content l ++ bs
  ∧ length (buf l') = length (buf l)
  ∧ sent l' = sent l ++ echoes (state l) bs ∧ diag l' = diag l.
Proof.
  induction bs as [|c bs IH]; intros l Hs Hd Hp H0 Hfit Hbuf.
  - simpl. rewrite Hd. simpl. rewrite Z.add_0_r, !app_nil_r.
    unfold echoes. destruct (state l =? 0); rewrite ?app_nil_r;
      repeat split; auto.
  - inversion Hp as [|? ? Hc Hp']; subst.
    cbn zeta. rewrite nvt_run_cons by exact Hd.
    rewrite nvt_byte_plain by assumption. cbn zeta.
    simpl length in Hfit.
    replace (offset l + 1 <? sz) with true by (symmetry; apply Z.ltb_lt; lia).
    assert (Hpush : content (push c l) = content l ++ [c])
      by (apply content_push; lia).
    set (l1 := if state l =? 0 then send (echo c) (push c l) else push c l).
    assert (Hl1 : offset l1 = offset l + 1 ∧ state l1 = state l
                  ∧ done l1 = false ∧ content l1 = content l ++ [c]
                  ∧ length (buf l1) = length (buf l)
                  ∧ sent l1 = sent l ++ echoes (state l) [c]
                  ∧ diag l1 = diag l).
    { unfold l1, echoes. destruct (state l =? 0); simpl;
        rewrite ?length_insert, ?app_nil_r; repeat split; auto. }
    destruct Hl1 as (Ho & Hst & Hdn & Hct & Hln & Hsn & Hdg).
    destruct (IH l1) as (Ko & Kst & Kdn & Kct & Kln & Ksn & Kdg);
      try assumption; try lia.
    { rewrite Hst. exact Hs. }
    simpl length. repeat split.
    + lia.
    + congruence.
    + exact Kdn.
    + rewrite Kct, Hct, <- app_assoc. reflexivity.
    + congruence.
    + rewrite Ksn, Hsn, Hst, <- app_assoc. f_equal.
      unfold echoes. destruct (state l =? 0); simpl; rewrite ?app_nil_r; reflexivity.
    + congruence.
Qed.

Lemma nvt_byte_cr l : normal (state l) → nvt_byte sz 13 l = set_done l.
Proof.
  intros Hs. unfold nvt_byte, nvt_normal.
  replace ((state l =? 0) || (state l =? 1)) with true
    by (destruct Hs as [-> | ->]; reflexivity).
  reflexivity.
Qed.

End Loop.

(** A call on plain bytes that fit, ended by CR. *)
Lemma nvt_line_plain bs rest sent0 buf0 sizeof_buf in_state diag0 :
  normal in_state → Forall plain bs →
  Z.of_nat (length bs) < sizeof_buf →
  sizeof_buf <= Z.of_nat (length buf0) →
  let r := recv_nvt_line (bytes bs ++ RecvByte 13 :: rest) sent0 buf0
             sizeof_buf in_state diag0 in
  ret r = Z.of_nat (length bs) ∧ line r = bs ∧ state_out r = in_state
  ∧ rest_out r = rest ∧ sent_out r = sent0 ++ echoes in_state bs
  ∧ length (buf_out r) = length buf0 ∧ diag_out r = diag0.
Proof.
  intros Hs Hp Hfit Hbuf. cbn zeta. unfold recv_nvt_line.
  destruct (nvt_run_plain sizeof_buf bs (nvt_init buf0 in_state sent0 diag0))
    as (Ho & Hst & Hdn & Hct & Hln & Hsn & Hdg); simpl; try assumption; try lia.
  rewrite nvt_loop_bytes by exact Hdn.
  set (l := nvt_run sizeof_buf bs (nvt_init buf0 in_state sent0 diag0)) in *.
  simpl in Ho, Hst, Hct, Hln, Hsn, Hdg.
  simpl nvt_loop. rewrite Hdn.
  rewrite nvt_byte_cr by (rewrite Hst; exact Hs).
  rewrite nvt_loop_finished by reflexivity.
  unfold line, nvt_return. simpl.
  repeat split; assumption.
Qed.

(** ** C1: content preservation *)

(** C1, as stated, fails: a sequence free of 0xFF, CR, LF and NUL is not
    returned verbatim when it holds a DEL byte (["a" DEL CR] gives the empty
    line), when it holds Ctrl-C or Ctrl-D (the line ends there), or when it
    does not fit the buffer (256 bytes are cut to 255). *)
Lemma unreserved_not_verbatim :
  (Forall unreserved [97; 127]
   ∧ line (recv_nvt_line (bytes [97; 127] ++ [RecvByte 13]) [] (blank 256) 256 0 [])
     ≠ [97; 127])
  ∧ (Forall unreserved [97; 3; 98]
     ∧ line (recv_nvt_line (bytes [97; 3; 98] ++ [RecvByte 13]) [] (blank 256)
               256 0 [])
       ≠ [97; 3; 98])
  ∧ (Forall unreserved (replicate 256 97)
     ∧ line (recv_nvt_line (bytes (replicate 256 97) ++ [RecvByte 13]) []
               (blank 256) 256 0 [])
       ≠ replicate 256 97).
Proof.
  assert (Hu : ∀ c, (c =? 255) || (c =? 13) || (c =? 10) || (c =? 0) = false →
                    unreserved c).
  { intros c H. apply orb_false_elim in H as [H H0].
    apply orb_false_elim in H as [H H10].
    apply orb_false_elim in H as [H255 H13].
    unfold unreserved. rewrite <- !Z.eqb_neq. auto. }
  split; [|split]; split.
  - repeat constructor; apply Hu; reflexivity.
  - vm_compute. discriminate.
  - repeat constructor; apply Hu; reflexivity.
  - vm_compute. discriminate.
  - apply Forall_replicate, Hu. reflexivity.
  - intros H. apply (f_equal length) in H. vm_compute in H. discriminate.
Qed.

(** C1, amended: a byte sequence that holds none of 0xFF, CR, LF, NUL, DEL
    (0x7F), Ctrl-C (0x03) and Ctrl-D (0x04) and is shorter than the buffer,
    followed by CR, is returned verbatim by a call that starts in state 0 or
    1: the call returns its length, the first bytes of the buffer are the
    sequence, the state is left as it was and the input after the CR is
    left unread. *)
Theorem recv_nvt_line_verbatim bs rest sent0 buf0 sizeof_buf in_state diag0 :
  normal in_state → Forall plain bs →
  Z.of_nat (length bs) < sizeof_buf →
  sizeof_buf <= Z.of_nat (length buf0) →
  let r := recv_nvt_line (bytes bs ++ RecvByte 13 :: rest) sent0 buf0
             sizeof_buf in_state diag0 in
  ret r = Z.of_nat (length bs) ∧ line r = bs ∧ state_out r = in_state
  ∧ rest_out r = rest.
Proof.
  intros Hs Hp Hfit Hbuf.
  destruct (nvt_line_plain bs rest sent0 buf0 sizeof_buf in_state diag0)
    as (H1 & H2 & H3 & H4 & _); auto.
Qed.

Lemma recv_nvt_line_verbatim_witness :
  let r := recv_nvt_line (bytes (str "root") ++ RecvByte 13 :: [RecvByte 120])
             [] (blank 256) 256 1 [] in
  ret r = 4 ∧ line r = str "root" ∧ state_out r = 1 ∧ rest_out r = [RecvByte 120].
Proof.
  apply (recv_nvt_line_verbatim (str "root") [RecvByte 120] [] (blank 256) 256 1 []).
  - right. reflexivity.
  - repeat constructor; vm_compute; discriminate.
  - vm_compute. reflexivity.
  - vm_compute. discriminate.
Defined.

(** ** C5: the buffer bound *)

Ltac ztests :=
  repeat match goal with
  | |- context [(?a =? ?b)] => destruct (Z.eqb_spec a b)
  | |- context [(?a <? ?b)] => destruct (Z.ltb_spec a b)
  | |- context [(?a <=? ?b)] => destruct (Z.leb_spec a b)
  end.

(** The loop body keeps [offset] inside the buffer and never resizes [buf]. *)
Lemma nvt_byte_within sz c l :
  0 <= offset l < sz →
  0 <= offset (nvt_byte sz c l) < sz
  ∧ length (buf (nvt_byte sz c l)) = length (buf l).
Proof.
  intros H. unfold nvt_byte, nvt_normal, nvt_iac, push_if_room.
  ztests; simpl; rewrite ?length_insert; lia.
Qed.

Lemma nvt_run_within sz bs : ∀ l,
  0 <= offset l < sz →
  0 <= offset (nvt_run sz bs l) < sz
  ∧ length (buf (nvt_run sz bs l)) = length (buf l).
Proof.
  induction bs as [|c bs IH]; intros l H; simpl.
  - destruct (done l); auto.
  - destruct (done l); [auto|].
    destruct (nvt_byte_within sz c l H) as [H1 H2].
    destruct (IH _ H1) as [H3 H4]. split; [exact H3 | congruence].
Qed.

Lemma nvt_no_byte_within sz len ins l rest :
  0 <= offset l < sz → len <= 0 →
  ret (nvt_no_byte len ins l rest) <= sz - 1
  ∧ buf_out (nvt_no_byte len ins l rest) = buf l.
Proof.
  intros H Hlen. unfold nvt_no_byte, nvt_return. ztests; simpl; split; auto; lia.
Qed.

Lemma nvt_loop_within sz ins incoming : ∀ l,
  0 <= offset l < sz →
  ret (nvt_loop sz ins incoming l) <= sz - 1
  ∧ length (buf_out (nvt_loop sz ins incoming l)) = length (buf l).
Proof.
  induction incoming as [|r incoming IH]; intros l H; simpl.
  - destruct (done l); simpl; [split; [lia | reflexivity]|].
    destruct (nvt_no_byte_within sz 0 ins l [] H) as [H1 H2]; [lia|].
    rewrite H2. auto.
  - destruct (done l); simpl; [split; [lia | reflexivity]|].
    destruct r as [c| |].
    + destruct (nvt_byte_within sz c l H) as [H1 H2].
      destruct (IH _ H1) as [H3 H4]. split; [exact H3 | congruence].
    + destruct (nvt_no_byte_within sz 0 ins l incoming H) as [H1 H2]; [lia|].
      simpl recv_len. rewrite H2. auto.
    + destruct (nvt_no_byte_within sz (-1) ins l incoming H) as [H1 H2]; [lia|].
      simpl recv_len. rewrite H2. auto.
Qed.

(** A plain byte that finds the buffer full completes the line and is
    dropped. *)
Lemma nvt_byte_full sz c l :
  normal (state l) → plain c → sz <= offset l + 1 →
  let l' := nvt_byte sz c l in
  done l' = true ∧ offset l' = offset l ∧ buf l' = buf l ∧ state l' = state l.
Proof.
  intros Hs Hp Hfull. cbn zeta. rewrite nvt_byte_plain by assumption. cbn zeta.
  replace (offset l + 1 <? sz) with false by (symmetry; apply Z.ltb_ge; lia).
  destruct (state l =? 0); simpl; auto.
Qed.

(** C5, as stated, fails with the 256-byte buffers of the program: a line
    of 257 bytes is cut at 255 bytes, not at 256. *)
Lemma capacity_line_is_cut_one_short :
  let r := recv_nvt_line (bytes (replicate 257 97) ++ [RecvByte 13]) []
             (blank 256) 256 0 [] in
  length (buf_out r) = 256%nat ∧ ret r = 255 ∧ ret r ≠ 256.
Proof. vm_compute. repeat split; discriminate. Qed.

(** C5, amended: with a buffer of [sizeof_buf] bytes, for every input the
    number of content bytes accumulated never exceeds [sizeof_buf - 1], the
    value returned never exceeds it either and the buffer keeps its size;
    and a line of [sizeof_buf] or more plain bytes is forcibly completed
    with exactly its first [sizeof_buf - 1] bytes, the call returning
    [sizeof_buf - 1] and not an error. The byte that found the buffer full
    is consumed and dropped. *)
Theorem recv_nvt_line_capacity sizeof_buf bs rest sent0 buf0 in_state diag0 :
  1 <= sizeof_buf → normal in_state → Forall plain bs →
  sizeof_buf <= Z.of_nat (length bs) →
  sizeof_buf <= Z.of_nat (length buf0) →
  (∀ incoming s,
     let r := recv_nvt_line incoming sent0 buf0 sizeof_buf s diag0 in
     ret r <= sizeof_buf - 1 ∧ length (buf_out r) = length buf0)
  ∧ (∀ received s,
       offset (nvt_run sizeof_buf received (nvt_init buf0 s sent0 diag0))
       <= sizeof_buf - 1)
  ∧ (let r := recv_nvt_line (bytes bs ++ rest) sent0 buf0 sizeof_buf
                in_state diag0 in
     ret r = sizeof_buf - 1
     ∧ line r = take (Z.to_nat (sizeof_buf - 1)) bs
     ∧ rest_out r = bytes (drop (Z.to_nat sizeof_buf) bs) ++ rest
     ∧ length (buf_out r) = length buf0).
Proof.
  intros Hsz Hs Hp Hlong Hbuf. split; [|split].
  - intros incoming s. cbn zeta. unfold recv_nvt_line.
    apply (nvt_loop_within sizeof_buf s incoming (nvt_init buf0 s sent0 diag0)).
    simpl. lia.
  - intros received s.
    destruct (nvt_run_within sizeof_buf received (nvt_init buf0 s sent0 diag0))
      as [H _]; [simpl; lia | lia].
  - cbn zeta.
    set (n := Z.to_nat (sizeof_buf - 1)).
    assert (Hsplit : bs = take n bs ++ drop n bs) by (symmetry; apply take_drop).
    destruct (drop n bs) as [|c tl] eqn:Hdrop.
    { apply (f_equal length) in Hdrop. rewrite length_drop in Hdrop.
      simpl in Hdrop. lia. }
    assert (Htl : tl = drop (Z.to_nat sizeof_buf) bs).
    { replace (Z.to_nat sizeof_buf) with (n + 1)%nat by lia.
      rewrite <- drop_drop, Hdrop. reflexivity. }
    assert (Hlen : length (take n bs) = n) by (apply length_take_le; lia).
    assert (Hp1 : Forall plain (take n bs)) by (apply Forall_take; exact Hp).
    assert (Hc : plain c).
    { rewrite Hsplit in Hp. apply Forall_app in Hp as [_ Hp].
      inversion Hp; assumption. }
    destruct (nvt_run_plain sizeof_buf (take n bs)
                (nvt_init buf0 in_state sent0 diag0))
      as (Ho & Hst & Hdn & Hct & Hln & _); simpl; try assumption; try lia.
    set (l := nvt_run sizeof_buf (take n bs)
                (nvt_init buf0 in_state sent0 diag0)) in *.
    simpl in Ho, Hst, Hct, Hln.
    destruct (nvt_byte_full sizeof_buf c l) as (Fd & Fo & Fb & Fs);
      [rewrite Hst; exact Hs | exact Hc | lia |].
    assert (Hr : recv_nvt_line (bytes bs ++ rest) sent0 buf0 sizeof_buf
                   in_state diag0
                 = nvt_return (nvt_byte sizeof_buf c l) (bytes tl ++ rest)).
    { unfold recv_nvt_line. rewrite Hsplit at 1.
      unfold bytes. rewrite map_app, <- app_assoc. fold (bytes (take n bs)).
      rewrite nvt_loop_bytes by exact Hdn. fold l.
      simpl map. simpl app. simpl nvt_loop. rewrite Hdn.
      apply nvt_loop_finished. exact Fd. }
    rewrite Hr. unfold line, nvt_return. cbn [ret buf_out rest_out].
    rewrite Fo, Fb, Ho, Hlen.
    repeat split.
    + lia.
    + rewrite <- Hct. unfold content. f_equal. lia.
    + rewrite Htl. reflexivity.
    + exact Hln.
Qed.

Lemma recv_nvt_line_capacity_witness :
  (∀ incoming s,
     let r := recv_nvt_line incoming [] (blank 4) 4 s [] in
     ret r <= 4 - 1 ∧ length (buf_out r) = length (blank 4))
  ∧ (∀ received s, offset (nvt_run 4 received (nvt_init (blank 4) s [] [])) <= 4 - 1)
  ∧ (let r := recv_nvt_line (bytes (str "abcde") ++ [RecvByte 13]) [] (blank 4) 4
                0 [] in
     ret r = 4 - 1
     ∧ line r = take (Z.to_nat (4 - 1)) (str "abcde")
     ∧ rest_out r = bytes (drop (Z.to_nat 4) (str "abcde")) ++ [RecvByte 13]
     ∧ length (buf_out r) = length (blank 4)).
Proof.
  apply (recv_nvt_line_capacity 4 (str "abcde") [RecvByte 13] [] (blank 4) 0 []).
  - lia.
  - left. reflexivity.
  - repeat constructor; vm_compute; discriminate.
  - vm_compute. discriminate.
  - vm_compute. discriminate.
Defined.

(** ** C6: the end of the stream *)

(** The loop at a [recv] that gives no byte, after bytes that did not
    complete the line. *)
Lemma nvt_loop_closed sz ins bs rest l :
  done (nvt_run sz bs l) = false →
  nvt_loop sz ins (bytes bs ++ RecvClosed :: rest) l
  = nvt_no_byte 0 ins (nvt_run sz bs l) rest.
Proof.
  intros H. rewrite nvt_loop_bytes by exact H. simpl. rewrite H. reflexivity.
Qed.

Lemma nvt_loop_error sz ins bs rest l :
  done (nvt_run sz bs l) = false →
  nvt_loop sz ins (bytes bs ++ RecvError :: rest) l
  = nvt_no_byte (-1) ins (nvt_run sz bs l) rest.
Proof.
  intros H. rewrite nvt_loop_bytes by exact H. simpl. rewrite H. reflexivity.
Qed.

Lemma nvt_loop_exhausted sz ins bs l :
  done (nvt_run sz bs l) = false →
  nvt_loop sz ins (bytes bs) l = nvt_no_byte 0 ins (nvt_run sz bs l) [].
Proof.
  intros H. rewrite <- (app_nil_r (bytes bs)).
  rewrite nvt_loop_bytes by exact H. simpl. rewrite H. reflexivity.
Qed.

(** C6, as stated, fails for a negative result: after an IAC byte the parser
    is in state 2 with nothing accumulated, [recv] fails, and the call
    returns -1 with the caller's state variable still at 0. *)
Lemma failed_recv_does_not_persist_state :
  let l := nvt_run 256 [255] (nvt_init (blank 256) 0 [] []) in
  let r := recv_nvt_line [RecvByte 255; RecvError] [] (blank 256) 256 0 [] in
  offset l = 0 ∧ state l = 2 ∧ ret r = -1 ∧ state_out r = 0
  ∧ state_out r ≠ state l.
Proof. vm_compute. repeat split; discriminate. Qed.

(** C6, amended: let the bytes received so far leave the line incomplete.
    If the next [recv] gives 0 (or the stream is used up) the call returns
    the number of bytes accumulated, which is 0 when there are none, hands
    back the accumulated bytes as the line and stores the parser state in the
    caller's state variable. If the next [recv] gives a negative result the
    call returns -1, whether bytes were accumulated or not, and leaves the
    caller's state variable as it was. *)
Theorem recv_nvt_line_no_byte sizeof_buf bs rest sent0 buf0 in_state diag0 :
  let l := nvt_run sizeof_buf bs (nvt_init buf0 in_state sent0 diag0) in
  done l = false →
  (let r := recv_nvt_line (bytes bs ++ RecvClosed :: rest) sent0 buf0
              sizeof_buf in_state diag0 in
   ret r = offset l ∧ line r = content l ∧ state_out r = state l
   ∧ rest_out r = rest)
  ∧ (let r := recv_nvt_line (bytes bs) sent0 buf0 sizeof_buf in_state diag0 in
     ret r = offset l ∧ line r = content l ∧ state_out r = state l)
  ∧ (let r := recv_nvt_line (bytes bs ++ RecvError :: rest) sent0 buf0
                sizeof_buf in_state diag0 in
     ret r = -1 ∧ state_out r = in_state ∧ buf_out r = buf l
     ∧ rest_out r = rest).
Proof.
  intros l Hd. unfold recv_nvt_line. fold l in Hd |- *.
  rewrite nvt_loop_closed, nvt_loop_exhausted, nvt_loop_error by exact Hd.
  fold l. unfold nvt_no_byte, nvt_return, line, content. simpl.
  destruct (Z.eqb_spec (offset l) 0) as [E|E]; simpl; rewrite ?E;
    repeat split; reflexivity.
Qed.

Lemma recv_nvt_line_no_byte_witness :
  let l := nvt_run 256 (str "ab" ++ [255]) (nvt_init (blank 256) 0 [] []) in
  (let r := recv_nvt_line (bytes (str "ab" ++ [255]) ++ RecvClosed :: []) []
              (blank 256) 256 0 [] in
   ret r = offset l ∧ line r = content l ∧ state_out r = state l
   ∧ rest_out r = [])
  ∧ (let r := recv_nvt_line (bytes (str "ab" ++ [255])) [] (blank 256) 256 0 [] in
     ret r = offset l ∧ line r = content l ∧ state_out r = state l)
  ∧ (let r := recv_nvt_line (bytes (str "ab" ++ [255]) ++ RecvError :: []) []
                (blank 256) 256 0 [] in
     ret r = -1 ∧ state_out r = 0 ∧ buf_out r = buf l ∧ rest_out r = []).
Proof.
  apply (recv_nvt_line_no_byte 256 (str "ab" ++ [255]) [] [] (blank 256) 0 []).
  vm_compute. reflexivity.
Defined.

(** ** C8: DEL *)

(** C8: in state 0 or 1 the byte 0x7F removes the last accumulated byte when
    there is one and changes nothing when there is none, so that [offset]
    never goes below zero; the buffer itself, the state and [done] are left
    alone; and the erase sequence BS SP BS is sent exactly when a byte was
    removed in state 0, never in state 1. *)
Theorem nvt_byte_del sizeof_buf l :
  normal (state l) → 0 <= offset l <= Z.of_nat (length (buf l)) →
  let l' := nvt_byte sizeof_buf 127 l in
  offset l' = Z.max 0 (offset l - 1)
  ∧ 0 <= offset l'
  ∧ content l' = removelast (content l)
  ∧ buf l' = buf l ∧ state l' = state l ∧ done l' = done l
  ∧ sent l' = sent l ++ (if (state l =? 0) && negb (offset l =? 0)
                          then [8; 32; 8] else []).
Proof.
  intros Hs Ho. cbn zeta. unfold nvt_byte, nvt_normal.
  replace ((state l =? 0) || (state l =? 1)) with true
    by (destruct Hs as [-> | ->]; reflexivity).
  simpl. destruct (Z.eqb_spec (offset l) 0) as [E|E].
  - rewrite andb_false_r, app_nil_r. unfold content. rewrite E. simpl.
    repeat split; auto; lia.
  - assert (Hc : content (set_offset (offset l - 1) l) = removelast (content l)).
    { unfold content. simpl.
      replace (Z.to_nat (offset l)) with (S (Z.to_nat (offset l - 1))) by lia.
      symmetry. apply removelast_firstn. lia. }
    rewrite andb_true_r.
    destruct (state l =? 0); simpl; rewrite ?app_nil_r;
      repeat split; auto; try lia; exact Hc.
Qed.

Lemma nvt_byte_del_witness :
  let l := nvt_run 256 (str "ab") (nvt_init (blank 256) 0 [] []) in
  let l' := nvt_byte 256 127 l in
  content l = str "ab"
  ∧ content l' = str "a"
  ∧ (offset l' = Z.max 0 (offset l - 1)
     ∧ 0 <= offset l'
     ∧ content l' = removelast (content l)
     ∧ buf l' = buf l ∧ state l' = state l ∧ done l' = done l
     ∧ sent l' = sent l ++ (if (state l =? 0) && negb (offset l =? 0)
                             then [8; 32; 8] else [])).
Proof.
  split; [vm_compute; reflexivity|]. split; [vm_compute; reflexivity|].
  apply (nvt_byte_del 256 (nvt_run 256 (str "ab") (nvt_init (blank 256) 0 [] []))).
  - left. vm_compute. reflexivity.
  - vm_compute. split; discriminate.
Defined.

(** ** C10: Ctrl-C and Ctrl-D *)

(** The loop body on Ctrl-C or Ctrl-D in a Normal state: the byte goes
    through the append branch, then [done] is set. *)
Lemma nvt_byte_ctrl sz c l :
  normal (state l) → c = 3 ∨ c = 4 →
  nvt_byte sz c l =
    let l1 := if offset l + 1 <? sz then push c l else set_done l in
    set_done (if state l =? 0 then send (echo c) l1 else l1).
Proof.
  intros Hs Hc. unfold nvt_byte, nvt_normal.
  replace ((state l =? 0) || (state l =? 1)) with true
    by (destruct Hs as [-> | ->]; reflexivity).
  destruct Hc as [-> | ->]; reflexivity.
Qed.

(** C10: when Ctrl-C (0x03) or Ctrl-D (0x04) arrives in state 0 or 1 after
    plain bytes and the buffer still has room, the control byte is appended
    and the line is completed at once: the returned line is the bytes
    received so far followed by the control byte itself, and the input after
    it is left unread. *)
Theorem recv_nvt_line_ctrl bs c rest sent0 buf0 sizeof_buf in_state diag0 :
  normal in_state → Forall plain bs → c = 3 ∨ c = 4 →
  Z.of_nat (length bs) + 1 < sizeof_buf →
  sizeof_buf <= Z.of_nat (length buf0) →
  let r := recv_nvt_line (bytes bs ++ RecvByte c :: rest) sent0 buf0
             sizeof_buf in_state diag0 in
  ret r = Z.of_nat (length bs) + 1 ∧ line r = bs ++ [c]
  ∧ rest_out r = rest ∧ state_out r = in_state
  ∧ sent_out r = sent0 ++ echoes in_state (bs ++ [c]).
Proof.
  intros Hs Hp Hc Hfit Hbuf. cbn zeta. unfold recv_nvt_line.
  destruct (nvt_run_plain sizeof_buf bs (nvt_init buf0 in_state sent0 diag0))
    as (Ho & Hst & Hdn & Hct & Hln & Hsn & Hdg); simpl; try assumption; try lia.
  rewrite nvt_loop_bytes by exact Hdn.
  set (l := nvt_run sizeof_buf bs (nvt_init buf0 in_state sent0 diag0)) in *.
  simpl in Ho, Hst, Hct, Hln, Hsn.
  simpl nvt_loop. rewrite Hdn.
  rewrite nvt_byte_ctrl by (rewrite ?Hst; assumption). cbn zeta.
  replace (offset l + 1 <? sizeof_buf) with true
    by (symmetry; apply Z.ltb_lt; lia).
  assert (Hpush : content (push c l) = bs ++ [c]).
  { rewrite content_push by lia. rewrite Hct. reflexivity. }
  rewrite nvt_loop_finished by reflexivity.
  unfold line, nvt_return. unfold content in Hpush.
  assert (He : echoes in_state (bs ++ [c]) = echoes in_state bs ++ echoes in_state [c]).
  { unfold echoes. destruct (in_state =? 0); [|reflexivity].
    rewrite flat_map_app. reflexivity. }
  rewrite He, app_assoc, <- Hsn. unfold echoes. rewrite Hst.
  destruct (in_state =? 0); simpl; simpl in Hpush; rewrite ?app_nil_r;
    repeat split; auto; lia.
Qed.

Lemma recv_nvt_line_ctrl_witness :
  let r := recv_nvt_line (bytes (str "root") ++ RecvByte 3 :: [RecvByte 120]) []
             (blank 256) 256 0 [] in
  ret r = Z.of_nat (length (str "root")) + 1 ∧ line r = str "root" ++ [3]
  ∧ rest_out r = [RecvByte 120] ∧ state_out r = 0
  ∧ sent_out r = [] ++ echoes 0 (str "root" ++ [3]).
Proof.
  apply (recv_nvt_line_ctrl (str "root") 3 [RecvByte 120] [] (blank 256) 256 0 []).
  - left. reflexivity.
  - repeat constructor; vm_compute; discriminate.
  - left. reflexivity.
  - vm_compute. reflexivity.
  - vm_compute. discriminate.
Defined.

(** ** C4: subnegotiation *)

Lemma set_state_same l : set_state (state l) l = l.
Proof. destruct l; reflexivity. Qed.

Lemma nvt_byte_iac sz l : normal (state l) → nvt_byte sz 255 l = set_state 2 l.
Proof.
  intros Hs. unfold nvt_byte, nvt_normal.
  replace ((state l =? 0) || (state l =? 1)) with true
    by (destruct Hs as [-> | ->]; reflexivity).
  reflexivity.
Qed.

Lemma nvt_byte_sb sz c l :
  state l = 20 → nvt_byte sz c l = if c =? 255 then set_state 21 l else l.
Proof. intros H. unfold nvt_byte. rewrite H. reflexivity. Qed.

Lemma nvt_byte_sb_iac sz c l :
  state l = 21 →
  nvt_byte sz c l = if c =? 240 then set_state 0 l else set_state 20 l.
Proof. intros H. unfold nvt_byte. rewrite H. reflexivity. Qed.

(** Inside a subnegotiation the payload only moves the parser between the
    states 20 and 21. *)
Lemma nvt_run_payload sz p : ∀ l,
  done l = false → no_iac_se p = true →
  (state l = 20 →
   ∃ s, (s = 20 ∨ s = 21) ∧ nvt_run sz p l = set_state s l)
  ∧ (state l = 21 → hd 0 p ≠ 240 →
     ∃ s, (s = 20 ∨ s = 21) ∧ nvt_run sz p l = set_state s l).
Proof.
  induction p as [|a tl IH]; intros l Hd Hp.
  - simpl. rewrite Hd. split; intros H; [|intros _].
    + exists 20. rewrite <- H, set_state_same. auto.
    + exists 21. rewrite <- H, set_state_same. auto.
  - simpl in Hp. apply andb_true_iff in Hp as [Ha Htl].
    apply negb_true_iff, andb_false_iff in Ha.
    split.
    + intros H. rewrite nvt_run_cons, nvt_byte_sb by assumption.
      destruct (Z.eqb_spec a 255) as [Ea|Ea].
      * destruct Ha as [Ha|Ha]; [discriminate|]. apply Z.eqb_neq in Ha.
        destruct (IH (set_state 21 l)) as [_ K]; [exact Hd | exact Htl |].
        destruct K as (s & Hs & K); [reflexivity | exact Ha |].
        exists s. split; [exact Hs | exact K].
      * destruct (IH l) as [K _]; [exact Hd | exact Htl |].
        apply K. exact H.
    + intros H Hhd. simpl in Hhd.
      rewrite nvt_run_cons, nvt_byte_sb_iac by assumption.
      replace (a =? 240) with false by (symmetry; apply Z.eqb_neq; exact Hhd).
      destruct (IH (set_state 20 l)) as [K _]; [exact Hd | exact Htl |].
      destruct K as (s & Hs & K); [reflexivity|].
      exists s. split; [exact Hs | exact K].
Qed.

(** A whole block met in a Normal state. *)
Lemma nvt_run_subneg sz payload l :
  normal (state l) → done l = false → no_iac_se payload = true →
  ∃ s, (s = 0 ∨ s = 20) ∧ nvt_run sz (subneg payload) l = set_state s l.
Proof.
  intros Hs Hd Hp. unfold subneg.
  change ([255; 250] ++ payload ++ [255; 240])
    with (255 :: 250 :: (payload ++ [255; 240])).
  rewrite nvt_run_cons, nvt_byte_iac by assumption.
  rewrite nvt_run_cons by exact Hd.
  change (nvt_byte sz 250 (set_state 2 l)) with (set_state 20 l).
  rewrite nvt_run_app.
  destruct (nvt_run_payload sz payload (set_state 20 l) Hd Hp) as [K _].
  destruct K as (s & [-> | ->] & ->); [reflexivity | |].
  - exists 0. split; [left; reflexivity|].
    rewrite nvt_run_cons by exact Hd.
    rewrite nvt_run_cons by exact Hd. simpl. rewrite Hd. reflexivity.
  - exists 20. split; [right; reflexivity|].
    rewrite nvt_run_cons by exact Hd.
    rewrite nvt_run_cons by exact Hd. simpl. rewrite Hd. reflexivity.
Qed.

(** C4: a subnegotiation block IAC SB payload IAC SE that arrives in state 0
    or 1, after any earlier input of the call, is absorbed: whatever the
    payload holds (0xFF bytes included, as long as none is followed by SE)
    the bytes accumulated, the buffer and the bytes sent are those from
    before the block, the line is not completed, and the call goes on with
    the input after the block. No payload byte can reach the line. *)
Theorem subnegotiation_absorbed sizeof_buf pre payload rest sent0 buf0
    in_state diag0 :
  let l := nvt_run sizeof_buf pre (nvt_init buf0 in_state sent0 diag0) in
  let l' := nvt_run sizeof_buf (pre ++ subneg payload)
              (nvt_init buf0 in_state sent0 diag0) in
  normal (state l) → done l = false → no_iac_se payload = true →
  offset l' = offset l ∧ buf l' = buf l ∧ content l' = content l
  ∧ sent l' = sent l ∧ diag l' = diag l ∧ done l' = false
  ∧ (state l' = 0 ∨ state l' = 20)
  ∧ recv_nvt_line (bytes (pre ++ subneg payload) ++ rest) sent0 buf0
      sizeof_buf in_state diag0
    = nvt_loop sizeof_buf in_state rest l'.
Proof.
  intros l l' Hs Hd Hp.
  destruct (nvt_run_subneg sizeof_buf payload l Hs Hd Hp) as (s & Hs' & Hrun).
  assert (El' : l' = set_state s l).
  { unfold l'. rewrite nvt_run_app. exact Hrun. }
  assert (Hd' : done l' = false) by (rewrite El'; exact Hd).
  unfold recv_nvt_line. rewrite nvt_loop_bytes by exact Hd'. fold l'.
  rewrite El'. unfold content. simpl. repeat split; auto.
Qed.

Lemma subnegotiation_absorbed_witness :
  let l := nvt_run 256 (str "ab") (nvt_init (blank 256) 1 [] []) in
  let l' := nvt_run 256 (str "ab" ++ subneg [24; 255; 255; 13; 120])
              (nvt_init (blank 256) 1 [] []) in
  offset l' = offset l ∧ buf l' = buf l ∧ content l' = content l
  ∧ sent l' = sent l ∧ diag l' = diag l ∧ done l' = false
  ∧ (state l' = 0 ∨ state l' = 20)
  ∧ recv_nvt_line (bytes (str "ab" ++ subneg [24; 255; 255; 13; 120])
                   ++ bytes (str "cd" ++ [13])) [] (blank 256) 256 1 []
    = nvt_loop 256 1 (bytes (str "cd" ++ [13])) l'.
Proof.
  apply (subnegotiation_absorbed 256 (str "ab") [24; 255; 255; 13; 120]
           (bytes (str "cd" ++ [13])) [] (blank 256) 1 []).
  - right. vm_compute. reflexivity.
  - vm_compute. reflexivity.
  - vm_compute. reflexivity.
Defined.

Example subneg_line :
  line (recv_nvt_line (bytes (str "ab" ++ subneg (str "xyz") ++ str "cd" ++ [13]))
          [] (blank 256) 256 0 [])
  = str "abcd".
Proof. vm_compute. reflexivity. Qed.

(** ** C9: negotiation ends in state 0 *)

(** No transition of the switch leads to state 1: only the caller sets it. *)
Lemma nvt_byte_not_noecho sz c l :
  state l ≠ 1 → state (nvt_byte sz c l) ≠ 1.
Proof.
  intros H. unfold nvt_byte, nvt_normal, nvt_iac, push_if_room.
  ztests; simpl; lia.
Qed.

Lemma nvt_run_not_noecho sz bs : ∀ l,
  state l ≠ 1 → state (nvt_run sz bs l) ≠ 1.
Proof.
  induction bs as [|c bs IH]; intros l H; simpl.
  - destruct (done l); exact H.
  - destruct (done l); [exact H|].
    apply IH, nvt_byte_not_noecho, H.
Qed.

(** A content byte met in state 0 is echoed, stored or not. *)
Lemma nvt_byte_echo sz c l :
  state l = 0 → literal c → sent (nvt_byte sz c l) = sent l ++ echo c.
Proof.
  intros Hs (H1 & H2 & H3 & H4 & H5). unfold nvt_byte, nvt_normal.
  rewrite Hs. simpl. zbool.
  destruct (offset l + 1 <? sz), ((c =? 3) || (c =? 4)); reflexivity.
Qed.

(** C9, as stated, fails for one content byte: the 0xFF that IAC IAC
    stores is not echoed. In a read without echo the client sends [pa], then
    IAC DO TERMINAL-TYPE, then IAC IAC and [s]: the line returned is [pa],
    0xFF, [s], and of the two content bytes that follow the negotiation only
    [s] is sent back. *)
Lemma escaped_iac_after_negotiation_not_echoed :
  let r := recv_nvt_line
             (bytes (str "pa" ++ [255; 253; 24] ++ [255; 255] ++ str "s" ++ [13]))
             [] (blank 256) 256 1 [] in
  line r = str "pa" ++ [255] ++ str "s"
  ∧ sent_out r = str "s"
  ∧ sent_out r ≠ [255] ++ str "s".
Proof. vm_compute. repeat split; discriminate. Qed.

(** C9, amended: from a state inside a telnet command every byte leads
    either to another such state or to state 0, never to state 1; the option
    byte after WILL, WONT, DO or DONT, the byte after IAC (an unrecognised
    one and a second IAC alike) and SE after IAC inside a subnegotiation all
    lead to state 0. So in a read that started in state 1 (no echo), once an
    IAC has arrived, whenever the parser is back in a Normal state it is in
    state 0 and the next content byte it meets there is echoed to the
    client. The one content byte that is stored outside the Normal states,
    the 0xFF of an escaped IAC IAC, is the exception: it is stored when
    there is room and nothing is sent for it. *)
Theorem negotiation_ends_in_echo sizeof_buf l0 d pre mid c sent0 buf0 diag0 :
  let l1 := nvt_run sizeof_buf pre (nvt_init buf0 1 sent0 diag0) in
  let l2 := nvt_run sizeof_buf (255 :: mid) l1 in
  negotiating (state l0) →
  state l1 = 1 → done l2 = false → normal (state l2) → literal c →
  (state (nvt_byte sizeof_buf d l0) = 0
   ∨ negotiating (state (nvt_byte sizeof_buf d l0)))
  ∧ state (nvt_byte sizeof_buf d (set_state 3 l0)) = 0
  ∧ state (nvt_byte sizeof_buf d (set_state 4 l0)) = 0
  ∧ state (nvt_byte sizeof_buf d (set_state 5 l0)) = 0
  ∧ state (nvt_byte sizeof_buf d (set_state 6 l0)) = 0
  ∧ state (nvt_byte sizeof_buf d (set_state 2 l0))
    = (if d =? 250 then 20
       else if (251 <=? d) && (d <=? 254) then d - 248 else 0)
  ∧ state (nvt_byte sizeof_buf 240 (set_state 21 l0)) = 0
  ∧ state l2 = 0
  ∧ sent (nvt_byte sizeof_buf c l2) = sent l2 ++ echo c
  ∧ state (nvt_byte sizeof_buf 255 (set_state 2 l0)) = 0
  ∧ sent (nvt_byte sizeof_buf 255 (set_state 2 l0)) = sent l0
  ∧ offset (nvt_byte sizeof_buf 255 (set_state 2 l0))
    = (if offset l0 + 1 <? sizeof_buf then offset l0 + 1 else offset l0).
Proof.
  intros l1 l2 [Hn0 Hn1] Hl1 Hd2 Hs2 Hc.
  assert (H2 : state l2 = 0).
  { assert (Hd1 : done l1 = false).
    { destruct (done l1) eqn:E; [|reflexivity].
      unfold l2 in Hd2. rewrite nvt_run_done in Hd2 by exact E. congruence. }
    assert (Hne : state l2 ≠ 1).
    { unfold l2. rewrite nvt_run_cons by exact Hd1.
      apply nvt_run_not_noecho.
      rewrite nvt_byte_iac by (right; exact Hl1). simpl. lia. }
    destruct Hs2 as [E|E]; [exact E | contradiction]. }
  assert (Hesc : nvt_byte sizeof_buf 255 (set_state 2 l0)
                 = set_state 0 (push_if_room sizeof_buf 255 l0)).
  { unfold nvt_byte, nvt_iac, push_if_room.
    cbn [state set_state offset Z.eqb Pos.eqb orb].
    destruct (offset l0 + 1 <? sizeof_buf); reflexivity. }
  split; [|repeat split; try reflexivity].
  - pose proof (nvt_byte_not_noecho sizeof_buf d l0 Hn1) as Hne.
    destruct (Z.eq_dec (state (nvt_byte sizeof_buf d l0)) 0) as [E|E];
      [left; exact E | right; split; assumption].
  - unfold nvt_byte, nvt_iac, push_if_room. simpl.
    ztests; simpl; lia.
  - exact H2.
  - apply nvt_byte_echo; assumption.
  - rewrite Hesc. unfold push_if_room.
    destruct (offset l0 + 1 <? sizeof_buf); reflexivity.
  - rewrite Hesc. unfold push_if_room.
    destruct (offset l0 + 1 <? sizeof_buf); reflexivity.
Qed.

Lemma negotiation_ends_in_echo_witness :
  let l0 := set_state 21 (nvt_init (blank 256) 1 [] []) in
  let l1 := nvt_run 256 (str "pa") (nvt_init (blank 256) 1 [] []) in
  let l2 := nvt_run 256 (255 :: [253; 24] ++ str "ss") l1 in
  sent l1 = [] ∧ sent l2 = str "ss"
  ∧ ((state (nvt_byte 256 240 l0) = 0 ∨ negotiating (state (nvt_byte 256 240 l0)))
     ∧ state (nvt_byte 256 240 (set_state 3 l0)) = 0
     ∧ state (nvt_byte 256 240 (set_state 4 l0)) = 0
     ∧ state (nvt_byte 256 240 (set_state 5 l0)) = 0
     ∧ state (nvt_byte 256 240 (set_state 6 l0)) = 0
     ∧ state (nvt_byte 256 240 (set_state 2 l0))
       = (if 240 =? 250 then 20
          else if (251 <=? 240) && (240 <=? 254) then 240 - 248 else 0)
     ∧ state (nvt_byte 256 240 (set_state 21 l0)) = 0
     ∧ state l2 = 0
     ∧ sent (nvt_byte 256 119 l2) = sent l2 ++ echo 119
     ∧ state (nvt_byte 256 255 (set_state 2 l0)) = 0
     ∧ sent (nvt_byte 256 255 (set_state 2 l0)) = sent l0
     ∧ offset (nvt_byte 256 255 (set_state 2 l0))
       = (if offset l0 + 1 <? 256 then offset l0 + 1 else offset l0)).
Proof.
  split; [vm_compute; reflexivity|]. split; [vm_compute; reflexivity|].
  apply (negotiation_ends_in_echo 256
           (set_state 21 (nvt_init (blank 256) 1 [] [])) 240
           (str "pa") ([253; 24] ++ str "ss") 119 [] (blank 256) []).
  - split; vm_compute; discriminate.
  - vm_compute. reflexivity.
  - vm_compute. reflexivity.
  - left. vm_compute. reflexivity.
  - repeat split; discriminate.
Defined.

(** A password read met by IAC DO TERMINAL-TYPE: the password is echoed
    after the prompt. *)
Example password_echoed_after_negotiation :
  ∃ w, handle_connection (str "1.2.3.4") (blank 256) (blank 256)
         (connect (bytes (str "root" ++ [13] ++ [255; 253; 24] ++ str "pw" ++ [13])))
       = Some w
       ∧ ends_with (password_prompt ++ str "pw" ++ login_incorrect ++ hello_again)
                   (outgoing w) = true
       ∧ stdout w = Some (str "1.2.3.4,root,pw" ++ [10]).
Proof. eexists. split; [vm_compute; reflexivity|]. split; vm_compute; reflexivity. Qed.

(** ** C7: the sanitizer *)

Lemma print_string_flat_map out s len :
  print_string out s len = out ++ flat_map print_char (take (Z.to_nat len) s).
Proof.
  unfold print_string. generalize (take (Z.to_nat len) s) as t. intros t.
  revert out. induction t as [|c t IH]; intros out; simpl.
  - rewrite app_nil_r. reflexivity.
  - rewrite IH, <- app_assoc. reflexivity.
Qed.

Lemma hex_digit_table d :
  0 <= d < 16 → hex_digit d = nth (Z.to_nat d) (str "0123456789abcdef") 0.
Proof.
  intros H.
  assert (Hall : forallb (fun n => hex_digit (Z.of_nat n)
                            =? nth n (str "0123456789abcdef") 0) (seq 0 16) = true)
    by (vm_compute; reflexivity).
  rewrite forallb_forall in Hall.
  specialize (Hall (Z.to_nat d)).
  rewrite Z2Nat.id in Hall by lia.
  apply Z.eqb_eq, Hall, in_seq. lia.
Qed.

Lemma land_byte c : 0 <= c < 256 → Z.land c 255 = c.
Proof.
  intros H. change 255 with (Z.ones 8).
  rewrite Z.land_ones by lia. apply Z.mod_small. lia.
Qed.

Lemma print_char_spec c : 0 <= c < 256 → print_char c = spec_render c.
Proof.
  intros H. unfold print_char, spec_render, is_blacklisted, isprint, spec_escaped.
  rewrite land_byte by exact H.
  assert (Hhex : hex_escape c = [92; 120] ++ spec_hex c).
  { unfold hex_escape, spec_hex. simpl.
    rewrite !hex_digit_table; [reflexivity | |].
    - apply Z.mod_pos_bound. lia.
    - split; [apply Z.div_pos; lia | apply Z.div_lt_upper_bound; lia]. }
  rewrite <- Hhex. simpl existsb.
  ztests; simpl; try reflexivity; lia.
Qed.

(** C7, as stated, fails for the right angle bracket: [>] is written as it
    is, not as a hexadecimal escape. *)
Lemma right_angle_bracket_not_escaped :
  print_string [] (str ">") 1 = str ">"
  ∧ print_string [] (str ">") 1 ≠ str "\x3e".
Proof. vm_compute. split; [reflexivity | discriminate]. Qed.

(** C7, amended: for every byte of a username or password the sanitizer
    writes a backslash, [x] and the two lower-case hexadecimal digits of the
    byte when the byte is not printable or is a backslash, a left angle
    bracket [<], a single quote, a double quote, a space or a comma, and
    writes every other byte, the right angle bracket [>] among them,
    unchanged; the password [a,b] is written as [a\x2cb]. *)
Theorem print_string_sanitizes out s :
  Forall (fun c => 0 <= c < 256) s →
  print_string out s (Z.of_nat (length s)) = out ++ sanitized s
  ∧ print_string [] (str "a,b") 3 = str "a\x2cb"
  ∧ print_string [] (str "<>") 2 = str "\x3c>".
Proof.
  intros Hs. split; [|split; vm_compute; reflexivity].
  rewrite print_string_flat_map, Nat2Z.id, firstn_all. f_equal.
  unfold sanitized. induction Hs as [|c s Hc Hs IH]; simpl.
  - reflexivity.
  - rewrite IH, print_char_spec by exact Hc. reflexivity.
Qed.

Lemma print_string_sanitizes_witness :
  print_string (str "1.2.3.4,root,") ([7] ++ str "a b\c" ++ [200])
    (Z.of_nat (length ([7] ++ str "a b\c" ++ [200])))
  = str "1.2.3.4,root," ++ sanitized ([7] ++ str "a b\c" ++ [200])
  ∧ print_string [] (str "a,b") 3 = str "a\x2cb"
  ∧ print_string [] (str "<>") 2 = str "\x3c>".
Proof.
  apply (print_string_sanitizes (str "1.2.3.4,root,") ([7] ++ str "a b\c" ++ [200])).
  repeat constructor; vm_compute; discriminate.
Defined.

Example sanitized_sample :
  sanitized ([7] ++ str "a b\c" ++ [200]) = str "\x07a\x20b\x5cc\xc8".
Proof. vm_compute. reflexivity. Qed.

(** ** The session *)

Lemma bytes_app a b : bytes (a ++ b) = bytes a ++ bytes b.
Proof. apply map_app. Qed.

(** The printers only look at the first [len] bytes of their arguments. *)
Lemma print_csv_lines fp host s1 len1 s2 len2 t1 t2 :
  take (Z.to_nat len1) s1 = t1 → take (Z.to_nat len2) s2 = t2 →
  print_csv fp host s1 len1 s2 len2
  = print_csv fp host t1 (Z.of_nat (length t1)) t2 (Z.of_nat (length t2)).
Proof.
  intros H1 H2. destruct fp as [out|]; [|reflexivity]. unfold print_csv.
  rewrite !print_string_flat_map, !Nat2Z.id, !firstn_all, H1, H2. reflexivity.
Qed.

(** A read of the session on a line of plain bytes. *)
Lemma session_recv_plain w buf0 st u rest :
  normal st → Forall plain u → Z.of_nat (length u) < 256 →
  256 <= Z.of_nat (length buf0) →
  incoming w = bytes u ++ RecvByte 13 :: rest →
  let r := session_recv w buf0 st in
  ret r = Z.of_nat (length u) ∧ line r = u ∧ state_out r = st
  ∧ rest_out r = rest ∧ sent_out r = outgoing w ++ echoes st u
  ∧ length (buf_out r) = length buf0 ∧ diag_out r = stderr w.
Proof.
  intros Hs Hp Hlen Hbuf Hin. cbn zeta. unfold session_recv. rewrite Hin.
  apply nvt_line_plain; assumption.
Qed.

(** A read of the session on a closed socket. *)
Lemma session_recv_closed w buf0 st :
  incoming w = [] →
  session_recv w buf0 st = NvtResult 0 buf0 st (outgoing w) [] (stderr w).
Proof. intros Hin. unfold session_recv. rewrite Hin. reflexivity. Qed.

(** One pass from the label [again:] for a client that answers both
    prompts with plain lines. *)
Lemma session_pass fuel peername hello tries login password w u p rest :
  Forall plain u → Forall plain p → u ≠ [] → p ≠ [] →
  Z.of_nat (length u) < 256 → Z.of_nat (length p) < 256 →
  256 <= Z.of_nat (length login) → 256 <= Z.of_nat (length password) →
  incoming w = bytes u ++ RecvByte 13 :: bytes p ++ RecvByte 13 :: rest →
  ∃ login' password',
    length login' = length login ∧ length password' = length password
    ∧ session (S fuel) peername hello 0 tries login password w =
        let w' :=
          World rest
            (outgoing w ++ hello ++ flat_map echo u ++ password_prompt
             ++ login_incorrect)
            (print_csv (stdout w) peername u (Z.of_nat (length u))
                       p (Z.of_nat (length p)))
            (stderr w) (closed w) in
        if tries <? 5 then
          session fuel peername hello_again 0 (tries + 1) login' password' w'
        else Some (session_end peername w').
Proof.
  intros Hu Hp Hune Hpne Hulen Hplen Hlogin Hpassword Hin.
  set (w1 := session_send hello w).
  destruct (session_recv_plain w1 login 0 u (bytes p ++ RecvByte 13 :: rest))
    as (R1 & L1 & S1 & I1 & O1 & B1 & D1); auto; [left; reflexivity|].
  set (r1 := session_recv w1 login 0) in *.
  set (w3 := session_send password_prompt (after_recv w1 r1)).
  destruct (session_recv_plain w3 password 1 p rest)
    as (R2 & L2 & S2 & I2 & O2 & B2 & D2); auto; [right; reflexivity|].
  set (r2 := session_recv w3 password 1) in *.
  exists (buf_out r1), (buf_out r2).
  split; [exact B1|]. split; [exact B2|].
  cbn [session]. fold w1. fold r1. rewrite S1. cbn [Z.eqb].
  fold w3. fold r2. rewrite S2. cbn [Z.eqb Pos.eqb].
  assert (Hu0 : (Z.of_nat (length u) <=? 0) = false).
  { apply Z.leb_gt. destruct u; [contradiction | simpl; lia]. }
  assert (Hp0 : (Z.of_nat (length p) <=? 0) = false).
  { apply Z.leb_gt. destruct p; [contradiction | simpl; lia]. }
  rewrite R1, Hu0, R2, Hp0.
  unfold line in L1, L2. rewrite R1 in L1. rewrite R2 in L2.
  rewrite (print_csv_lines _ _ (buf_out r1) _ (buf_out r2) _ u p L1 L2).
  unfold session_send, after_recv. cbn [incoming outgoing stdout stderr closed].
  rewrite I2, O2, D2. unfold w3, session_send, after_recv.
  cbn [incoming outgoing stdout stderr closed].
  rewrite O1, D1. unfold w1, session_send.
  cbn [incoming outgoing stdout stderr closed].
  unfold echoes. cbn [Z.eqb Pos.eqb]. rewrite app_nil_r, <- !app_assoc.
  reflexivity.
Qed.

(** A pass on a closed socket ends the session at the first read. *)
Lemma session_closed fuel peername hello st tries login password w :
  incoming w = [] →
  session (S fuel) peername hello st tries login password w
  = Some (session_error peername
            (World [] (outgoing w ++ hello) (stdout w) (stderr w) (closed w))).
Proof.
  intros Hin. cbn [session].
  rewrite session_recv_closed by exact Hin. reflexivity.
Qed.

(** The fuel of [handle_connection] is enough: [tries] counts the passes
    and the sixth one cannot jump back. *)
Lemma session_total fuel : ∀ peername hello st tries login password w,
  tries <= 5 → 6 - tries <= Z.of_nat fuel →
  is_Some (session fuel peername hello st tries login password w).
Proof.
  induction fuel as [|fuel IH]; intros peername hello st tries login password w
    Ht Hf.
  - simpl in Hf. lia.
  - cbn [session].
    destruct (ret (session_recv (session_send hello w) login st) <=? 0);
      [eexists; reflexivity|].
    match goal with
    | |- context [if ?b then Some (session_error _ _) else _] => destruct b
    end; [eexists; reflexivity|].
    destruct (Z.ltb_spec tries 5); [|eexists; reflexivity].
    apply IH; lia.
Qed.

Lemma handle_connection_total peername login password w :
  is_Some (handle_connection peername login password w).
Proof. apply session_total; simpl; lia. Qed.

(** A client that keeps answering is served until [tries] has reached 5 at
    the test, that is for [6 - tries] passes, and no further. *)
Lemma session_attempts peername ups : ∀ fuel hello tries login password w rest,
  ups ≠ [] → Forall plain_attempt ups →
  Z.of_nat (length ups) = 6 - tries → (length ups <= fuel)%nat →
  256 <= Z.of_nat (length login) → 256 <= Z.of_nat (length password) →
  incoming w = bytes (flat_map attempt ups) ++ rest →
  ∃ w', session fuel peername hello 0 tries login password w = Some w'
        ∧ incoming w' = rest
        ∧ outgoing w' = outgoing w ++ transcript hello ups
        ∧ stdout w' = records peername (stdout w) ups
        ∧ closed w' = true.
Proof.
  induction ups as [|[u p] ups IH];
    intros fuel hello tries login password w rest Hne Hall Hlen Hfuel
      Hlogin Hpassword Hin; [contradiction|].
  inversion Hall as [|? ? (Hu & Hp & Hune & Hpne & Hulen & Hplen) Hall']; subst.
  simpl in Hu, Hp, Hune, Hpne, Hulen, Hplen.
  destruct fuel as [|fuel]; [simpl in Hfuel; lia|].
  destruct (session_pass fuel peername hello tries login password w u p
              (bytes (flat_map attempt ups) ++ rest))
    as (login' & password' & Hl' & Hp' & Hpass); auto.
  { rewrite Hin. simpl flat_map. unfold attempt at 1. simpl fst. simpl snd.
    rewrite !bytes_app, <- !app_assoc. reflexivity. }
  rewrite Hpass. cbn zeta.
  destruct ups as [|up2 ups].
  - simpl in Hlen. replace (tries <? 5) with false
      by (symmetry; apply Z.ltb_ge; lia).
    eexists. split; [reflexivity|].
    cbn [incoming outgoing stdout closed session_end transcript records foldl
         fst snd].
    rewrite ?app_nil_r, <- ?app_assoc. repeat split; reflexivity.
  - replace (tries <? 5) with true
      by (symmetry; apply Z.ltb_lt; simpl length in Hlen; lia).
    match goal with
    | |- context [session fuel _ _ _ _ _ _ ?w0] =>
        destruct (IH fuel hello_again (tries + 1) login' password' w0 rest)
          as (w' & Hs & Hi & Ho & Hstd & Hc)
    end; try (simpl length in *; lia); try reflexivity; try assumption;
      try discriminate.
    exists w'. split; [exact Hs|]. split; [exact Hi|].
    split; [|split; [|exact Hc]].
    + rewrite Ho. cbn [outgoing]. cbn [transcript fst snd].
      rewrite <- !app_assoc. reflexivity.
    + rewrite Hstd. reflexivity.
Qed.

(** Six complete attempts, whatever they are, are all served: each gets its
    [Login incorrect], the sixth is not followed by a prompt, and anything
    the client sends afterwards stays unread. *)
Lemma handle_connection_six_attempts peername login password ups rest :
  length ups = 6%nat → Forall plain_attempt ups →
  256 <= Z.of_nat (length login) → 256 <= Z.of_nat (length password) →
  ∃ w', handle_connection peername login password
          (connect (bytes (flat_map attempt ups) ++ rest)) = Some w'
        ∧ incoming w' = rest
        ∧ outgoing w' = transcript hello_first ups
        ∧ stdout w' = records peername (Some []) ups
        ∧ closed w' = true.
Proof.
  intros Hlen Hall Hlogin Hpassword. unfold handle_connection.
  apply (session_attempts peername ups 6%nat hello_first 0 login password
           (connect (bytes (flat_map attempt ups) ++ rest)) rest); auto.
  - destruct ups; [discriminate | discriminate].
  - rewrite Hlen. reflexivity.
  - lia.
Qed.

(** ** C2: what a session records *)

(** C2, as stated, fails: a session whose client logs in as [shell] with the
    password [sh], or as [enable] with [system], writes the pair to
    [stdout] like any other. *)
Lemma session_records_shell_sh :
  (∃ w, handle_connection (str "1.2.3.4") (blank 256) (blank 256)
          (connect (bytes (str "shell" ++ [13] ++ str "sh" ++ [13]))) = Some w
        ∧ stdout w = Some (str "1.2.3.4,shell,sh" ++ [10]))
  ∧ (∃ w, handle_connection (str "1.2.3.4") (blank 256) (blank 256)
            (connect (bytes (str "enable" ++ [13] ++ str "system" ++ [13])))
          = Some w
          ∧ stdout w = Some (str "1.2.3.4,enable,system" ++ [10])).
Proof. split; eexists; split; vm_compute; reflexivity. Qed.

(** C2, amended: the operation a session invokes after a completed attempt
    is [print_csv], and it writes the line [peer,username,password], both
    fields sanitized, for every pair, the pairs shell/sh and enable/system
    included; [record("1.2.3.4","root","123456")] writes
    [1.2.3.4,root,123456]. The two pairs are suppressed only by
    [print_passwords], which no session calls and which writes
    [username password]. *)
Theorem session_records_every_pair peername login password u p :
  Forall plain u → Forall plain p → u ≠ [] → p ≠ [] →
  Z.of_nat (length u) < 256 → Z.of_nat (length p) < 256 →
  256 <= Z.of_nat (length login) → 256 <= Z.of_nat (length password) →
  (∃ w, handle_connection peername login password
          (connect (bytes (u ++ [13] ++ p ++ [13]))) = Some w
        ∧ stdout w = print_csv (Some []) peername u (Z.of_nat (length u))
                       p (Z.of_nat (length p))
        ∧ stdout w = Some (peername ++ str "," ++ flat_map print_char u
                           ++ str "," ++ flat_map print_char p ++ [10])
        ∧ closed w = true)
  ∧ print_csv (Some []) (str "1.2.3.4") (str "root") 4 (str "123456") 6
    = Some (str "1.2.3.4,root,123456" ++ [10])
  ∧ print_csv (Some []) (str "1.2.3.4") (str "shell") 5 (str "sh") 2
    = Some (str "1.2.3.4,shell,sh" ++ [10])
  ∧ print_csv (Some []) (str "1.2.3.4") (str "enable") 6 (str "system") 6
    = Some (str "1.2.3.4,enable,system" ++ [10])
  ∧ (∀ out, print_passwords (Some out) (str "shell") 5 (str "sh") 2 = Some out)
  ∧ (∀ out, print_passwords (Some out) (str "enable") 6 (str "system") 6
            = Some out)
  ∧ print_passwords (Some []) (str "root") 4 (str "123456") 6
    = Some (str "root 123456" ++ [10]).
Proof.
  intros Hu Hp Hune Hpne Hulen Hplen Hlogin Hpassword.
  split; [|repeat split; intros; vm_compute; reflexivity].
  unfold handle_connection.
  destruct (session_pass 5 peername hello_first 0 login password
              (connect (bytes (u ++ [13] ++ p ++ [13]))) u p [])
    as (login' & password' & _ & _ & Hpass); auto.
  { cbn [incoming connect]. rewrite !bytes_app. reflexivity. }
  rewrite Hpass. cbn zeta. cbn [Z.ltb Z.compare].
  rewrite session_closed by reflexivity.
  eexists. split; [reflexivity|]. split; [reflexivity|]. split; [|reflexivity].
  cbn [stdout session_error session_end connect]. unfold print_csv.
  rewrite !print_string_flat_map, !Nat2Z.id, !firstn_all, <- !app_assoc.
  reflexivity.
Qed.

Lemma session_records_every_pair_witness :
  (∃ w, handle_connection (str "1.2.3.4") (blank 256) (blank 256)
          (connect (bytes (str "shell" ++ [13] ++ str "sh" ++ [13]))) = Some w
        ∧ stdout w = print_csv (Some []) (str "1.2.3.4") (str "shell")
                       (Z.of_nat (length (str "shell")))
                       (str "sh") (Z.of_nat (length (str "sh")))
        ∧ stdout w = Some (str "1.2.3.4" ++ str "," ++ flat_map print_char (str "shell")
                           ++ str "," ++ flat_map print_char (str "sh") ++ [10])
        ∧ closed w = true)
  ∧ print_csv (Some []) (str "1.2.3.4") (str "root") 4 (str "123456") 6
    = Some (str "1.2.3.4,root,123456" ++ [10])
  ∧ print_csv (Some []) (str "1.2.3.4") (str "shell") 5 (str "sh") 2
    = Some (str "1.2.3.4,shell,sh" ++ [10])
  ∧ print_csv (Some []) (str "1.2.3.4") (str "enable") 6 (str "system") 6
    = Some (str "1.2.3.4,enable,system" ++ [10])
  ∧ (∀ out, print_passwords (Some out) (str "shell") 5 (str "sh") 2 = Some out)
  ∧ (∀ out, print_passwords (Some out) (str "enable") 6 (str "system") 6
            = Some out)
  ∧ print_passwords (Some []) (str "root") 4 (str "123456") 6
    = Some (str "root 123456" ++ [10]).
Proof.
  apply (session_records_every_pair (str "1.2.3.4") (blank 256) (blank 256)
           (str "shell") (str "sh")).
  - repeat constructor; vm_compute; discriminate.
  - repeat constructor; vm_compute; discriminate.
  - discriminate.
  - discriminate.
  - vm_compute. reflexivity.
  - vm_compute. reflexivity.
  - vm_compute. discriminate.
  - vm_compute. discriminate.
Defined.

(** ** C3: the number of attempts *)

(** C3, on the code: [tries++ < 5] compares the count from before the
    increment, so the jump back to [again:] is taken after the first five
    failed attempts and only the sixth one ends the session. A client that
    completes five attempts and then falls silent has been sent five
    [Login incorrect] and, after the fifth, a sixth [login: ] prompt; a
    client that keeps answering is sent a sixth [Login incorrect] before the
    socket is closed, and its seventh answer is never read. *)
Theorem sixth_prompt_after_fifth_failure :
  let answers := str "admin" ++ [13] ++ str "1234" ++ [13] in
  (∃ w,
      handle_connection (str "1.2.3.4") (blank 256) (blank 256)
        (connect (bytes (concat (replicate 5 answers)))) = Some w
      ∧ ends_with (login_incorrect ++ hello_again) (outgoing w) = true
      ∧ occurrences login_incorrect (outgoing w) = 5%nat
      ∧ occurrences (str "login: ") (outgoing w) = 6%nat)
  ∧ (∃ w,
       handle_connection (str "1.2.3.4") (blank 256) (blank 256)
         (connect (bytes (concat (replicate 7 answers)))) = Some w
       ∧ occurrences login_incorrect (outgoing w) = 6%nat
       ∧ occurrences (str "login: ") (outgoing w) = 6%nat
       ∧ incoming w = bytes answers
       ∧ closed w = true).
Proof.
  split.
  - eexists. split; [vm_compute; reflexivity|].
    repeat split; vm_compute; reflexivity.
  - eexists. split; [vm_compute; reflexivity|].
    repeat split; vm_compute; reflexivity.
Qed.

(** * Further properties of the code *)

(** ** recv_nvt_line: option negotiation, escaped IAC, ignored bytes *)

(** X1: IAC followed by WILL, WONT, DO or DONT (251..254) and any option
    byte, met in state 0 or 1 after any earlier input of the call, is
    consumed whole: nothing is stored, nothing is sent, the line is not
    completed, the parser is left in state 0 and the call goes on with the
    input after the three bytes. *)
Theorem option_negotiation_absorbed sizeof_buf pre verb opt rest sent0 buf0
    in_state diag0 :
  let l := nvt_run sizeof_buf pre (nvt_init buf0 in_state sent0 diag0) in
  normal (state l) → done l = false → 251 <= verb <= 254 →
  nvt_run sizeof_buf (pre ++ [255; verb; opt])
    (nvt_init buf0 in_state sent0 diag0) = set_state 0 l
  ∧ recv_nvt_line (bytes (pre ++ [255; verb; opt]) ++ rest) sent0 buf0
      sizeof_buf in_state diag0
    = nvt_loop sizeof_buf in_state rest (set_state 0 l).
Proof.
  intros l Hs Hd Hv.
  assert (Hrun : nvt_run sizeof_buf (pre ++ [255; verb; opt])
                   (nvt_init buf0 in_state sent0 diag0) = set_state 0 l).
  { rewrite nvt_run_app. fold l.
    rewrite nvt_run_cons, nvt_byte_iac by assumption.
    rewrite nvt_run_cons by exact Hd.
    assert (Hverb : verb = 251 ∨ verb = 252 ∨ verb = 253 ∨ verb = 254) by lia.
    destruct Hverb as [-> | [-> | [-> | ->]]];
      (rewrite nvt_run_cons by exact Hd); simpl; rewrite Hd; reflexivity. }
  split; [exact Hrun|].
  unfold recv_nvt_line. rewrite nvt_loop_bytes by (rewrite Hrun; exact Hd).
  rewrite Hrun. reflexivity.
Qed.

Lemma option_negotiation_absorbed_witness :
  let l := nvt_run 256 (str "ro") (nvt_init (blank 256) 0 [] []) in
  nvt_run 256 (str "ro" ++ [255; 253; 13]) (nvt_init (blank 256) 0 [] [])
  = set_state 0 l
  ∧ recv_nvt_line (bytes (str "ro" ++ [255; 253; 13]) ++ bytes (str "ot" ++ [13]))
      [] (blank 256) 256 0 []
    = nvt_loop 256 0 (bytes (str "ot" ++ [13])) (set_state 0 l).
Proof.
  apply (option_negotiation_absorbed 256 (str "ro") 253 13
           (bytes (str "ot" ++ [13])) [] (blank 256) 0 []).
  - left. vm_compute. reflexivity.
  - vm_compute. reflexivity.
  - lia.
Defined.

(** X2: IAC IAC met in state 0 or 1 while the buffer has room stores one
    literal 0xFF byte, leaves the parser in state 0 without completing the
    line, and sends nothing to the client, in state 0 as little as in
    state 1: the escaped byte is the one stored byte that is never echoed. *)
Theorem escaped_iac_stored_not_echoed sizeof_buf pre sent0 buf0 in_state diag0 :
  let l := nvt_run sizeof_buf pre (nvt_init buf0 in_state sent0 diag0) in
  let l' := nvt_run sizeof_buf (pre ++ [255; 255])
              (nvt_init buf0 in_state sent0 diag0) in
  normal (state l) → done l = false →
  0 <= offset l → offset l + 1 < sizeof_buf →
  sizeof_buf <= Z.of_nat (length (buf l)) →
  content l' = content l ++ [255] ∧ offset l' = offset l + 1
  ∧ sent l' = sent l ∧ state l' = 0 ∧ done l' = false.
Proof.
  intros l l' Hs Hd H0 Hroom Hbuf.
  assert (Hstep : nvt_byte sizeof_buf 255 (set_state 2 l)
                  = set_state 0 (push 255 l)).
  { unfold nvt_byte, nvt_iac, push_if_room.
    cbn [state set_state offset Z.eqb Pos.eqb orb].
    replace (offset l + 1 <? sizeof_buf) with true
      by (symmetry; apply Z.ltb_lt; lia).
    reflexivity. }
  assert (E : l' = set_state 0 (push 255 l)).
  { unfold l'. rewrite nvt_run_app. fold l.
    rewrite nvt_run_cons, nvt_byte_iac by assumption.
    rewrite nvt_run_cons by exact Hd.
    rewrite Hstep. simpl. rewrite Hd. reflexivity. }
  rewrite E.
  assert (Hc : content (push 255 l) = content l ++ [255])
    by (apply content_push; lia).
  repeat split; assumption.
Qed.

Lemma escaped_iac_stored_not_echoed_witness :
  let l := nvt_run 256 (str "ab") (nvt_init (blank 256) 0 [] []) in
  let l' := nvt_run 256 (str "ab" ++ [255; 255]) (nvt_init (blank 256) 0 [] []) in
  content l' = content l ++ [255] ∧ offset l' = offset l + 1
  ∧ sent l' = sent l ∧ state l' = 0 ∧ done l' = false.
Proof.
  apply (escaped_iac_stored_not_echoed 256 (str "ab") [] (blank 256) 0 []).
  - left. vm_compute. reflexivity.
  - vm_compute. reflexivity.
  - vm_compute. discriminate.
  - vm_compute. reflexivity.
  - vm_compute. discriminate.
Defined.

(** In a Normal state a byte other than IAC leaves the state alone. *)
Lemma nvt_byte_stays_normal sz c l :
  normal (state l) → c ≠ 255 → state (nvt_byte sz c l) = state l.
Proof.
  intros Hs Hc. unfold nvt_byte, nvt_normal.
  replace ((state l =? 0) || (state l =? 1)) with true
    by (destruct Hs as [-> | ->]; reflexivity).
  ztests; simpl; try reflexivity; lia.
Qed.

Lemma nvt_byte_nul_lf sz c l :
  normal (state l) → c = 0 ∨ c = 10 → nvt_byte sz c l = l.
Proof.
  intros Hs Hc. unfold nvt_byte, nvt_normal.
  replace ((state l =? 0) || (state l =? 1)) with true
    by (destruct Hs as [-> | ->]; reflexivity).
  destruct Hc as [-> | ->]; reflexivity.
Qed.

Lemma nvt_run_skips_nul_lf sz bs : ∀ l,
  normal (state l) → Forall (fun c => c ≠ 255) bs →
  nvt_run sz (filter (fun c => c ≠ 0 ∧ c ≠ 10) bs) l = nvt_run sz bs l.
Proof.
  induction bs as [|c bs IH]; intros l Hs Hbs; [reflexivity|].
  inversion Hbs as [|? ? Hc Hbs']; subst.
  destruct (done l) eqn:Hd.
  { rewrite !nvt_run_done by exact Hd. reflexivity. }
  rewrite (nvt_run_cons sz c bs l Hd).
  destruct (decide (c ≠ 0 ∧ c ≠ 10)) as [Hk|Hk].
  - rewrite filter_cons_True by exact Hk.
    rewrite nvt_run_cons by exact Hd.
    apply IH; [|exact Hbs'].
    rewrite nvt_byte_stays_normal by assumption. exact Hs.
  - rewrite filter_cons_False by exact Hk.
    rewrite nvt_byte_nul_lf by (assumption || lia).
    apply IH; assumption.
Qed.

(** X3: between the telnet commands NUL and LF bytes do not exist for the
    reader: received bytes free of IAC that do not complete the line give
    the same call, whatever follows, as the same bytes with every NUL and LF
    taken out. In particular the LF or NUL that a client sends after CR is
    dropped at the head of the next line. *)
Theorem nul_and_lf_ignored sizeof_buf bs rest sent0 buf0 in_state diag0 :
  normal in_state → Forall (fun c => c ≠ 255) bs →
  done (nvt_run sizeof_buf bs (nvt_init buf0 in_state sent0 diag0)) = false →
  recv_nvt_line (bytes bs ++ rest) sent0 buf0 sizeof_buf in_state diag0
  = recv_nvt_line (bytes (filter (fun c => c ≠ 0 ∧ c ≠ 10) bs) ++ rest)
      sent0 buf0 sizeof_buf in_state diag0.
Proof.
  intros Hs Hbs Hd. unfold recv_nvt_line.
  rewrite nvt_loop_bytes by exact Hd.
  rewrite nvt_loop_bytes
    by (rewrite nvt_run_skips_nul_lf by assumption; exact Hd).
  rewrite nvt_run_skips_nul_lf by assumption. reflexivity.
Qed.

Lemma nul_and_lf_ignored_witness :
  recv_nvt_line (bytes ([10] ++ str "ro" ++ [0; 0] ++ str "ot") ++ [RecvByte 13])
    [] (blank 256) 256 0 []
  = recv_nvt_line
      (bytes (filter (fun c => c ≠ 0 ∧ c ≠ 10) ([10] ++ str "ro" ++ [0; 0] ++ str "ot"))
       ++ [RecvByte 13]) [] (blank 256) 256 0 [].
Proof.
  apply (nul_and_lf_ignored 256 ([10] ++ str "ro" ++ [0; 0] ++ str "ot")
           [RecvByte 13] [] (blank 256) 0 []).
  - left. reflexivity.
  - repeat constructor; vm_compute; discriminate.
  - vm_compute. reflexivity.
Defined.

(** ** recv_nvt_line: what a read without echo sends, and the states *)

Lemma nvt_byte_silent sz c l :
  state l = 1 → c ≠ 255 → sent (nvt_byte sz c l) = sent l.
Proof.
  intros Hs Hc. unfold nvt_byte, nvt_normal. rewrite Hs.
  cbn [Z.eqb Pos.eqb orb]. ztests; simpl; try reflexivity; lia.
Qed.

Lemma nvt_loop_silent sz ins incoming : ∀ l,
  state l = 1 → Forall not_iac incoming →
  sent_out (nvt_loop sz ins incoming l) = sent l
  ∧ (state_out (nvt_loop sz ins incoming l) = 1
     ∨ state_out (nvt_loop sz ins incoming l) = ins).
Proof.
  induction incoming as [|r incoming IH]; intros l Hs Hin; simpl.
  - destruct (done l); simpl; [auto|].
    unfold nvt_no_byte, nvt_return. ztests; simpl; auto.
  - inversion Hin as [|? ? Hr Hin']; subst.
    destruct (done l); simpl; [auto|].
    destruct r as [c| |].
    + assert (Hc : c ≠ 255) by (intros ->; apply Hr; reflexivity).
      destruct (IH (nvt_byte sz c l)) as [H1 H2]; [|exact Hin'|].
      * rewrite nvt_byte_stays_normal by (auto; right; exact Hs). exact Hs.
      * rewrite H1, nvt_byte_silent by assumption. auto.
    + unfold nvt_no_byte, nvt_return. simpl. ztests; simpl; auto.
    + unfold nvt_no_byte, nvt_return. simpl. auto.
Qed.

(** X4: a read that starts in state 1 (the password read) and meets no IAC
    byte sends nothing at all to the client, whatever else arrives (DEL,
    control bytes, an overlong line, the end of the stream or a failed
    [recv]), and hands back state 1. *)
Theorem noecho_read_is_silent sizeof_buf incoming sent0 buf0 diag0 :
  Forall not_iac incoming →
  sent_out (recv_nvt_line incoming sent0 buf0 sizeof_buf 1 diag0) = sent0
  ∧ state_out (recv_nvt_line incoming sent0 buf0 sizeof_buf 1 diag0) = 1.
Proof.
  intros Hin. unfold recv_nvt_line.
  destruct (nvt_loop_silent sizeof_buf 1 incoming
              (nvt_init buf0 1 sent0 diag0)) as [H1 H2];
    [reflexivity | exact Hin |].
  split; [exact H1 | destruct H2; assumption].
Qed.

Lemma noecho_read_is_silent_witness :
  sent_out (recv_nvt_line (bytes (str "pw" ++ [127; 1; 3]) ++ [RecvError])
              (str "Password: ") (blank 256) 256 1 []) = str "Password: "
  ∧ state_out (recv_nvt_line (bytes (str "pw" ++ [127; 1; 3]) ++ [RecvError])
                 (str "Password: ") (blank 256) 256 1 []) = 1.
Proof.
  apply (noecho_read_is_silent 256 (bytes (str "pw" ++ [127; 1; 3]) ++ [RecvError])
           (str "Password: ") (blank 256) []).
  repeat constructor; discriminate.
Defined.

Lemma nvt_byte_known sz c l :
  known_state (state l) →
  known_state (state (nvt_byte sz c l)) ∧ diag (nvt_byte sz c l) = diag l.
Proof.
  unfold known_state.
  intros [E|[E|[E|[E|[E|[E|[E|[E|E]]]]]]]];
    unfold nvt_byte; rewrite E; cbn [Z.eqb Pos.eqb orb];
    unfold nvt_normal, nvt_iac, push_if_room;
    ztests; simpl; rewrite ?E; (split; [lia | reflexivity]).
Qed.

Lemma nvt_loop_known sz ins incoming : ∀ l,
  known_state (state l) → known_state ins →
  known_state (state_out (nvt_loop sz ins incoming l))
  ∧ diag_out (nvt_loop sz ins incoming l) = diag l.
Proof.
  induction incoming as [|r incoming IH]; intros l Hs Hins; simpl.
  - destruct (done l); simpl; [auto|].
    unfold nvt_no_byte, nvt_return. ztests; simpl; auto.
  - destruct (done l); simpl; [auto|].
    destruct r as [c| |].
    + destruct (nvt_byte_known sz c l Hs) as [H1 H2].
      destruct (IH _ H1 Hins) as [H3 H4]. split; [exact H3 | congruence].
    + unfold nvt_no_byte, nvt_return. simpl. ztests; simpl; auto.
    + unfold nvt_no_byte, nvt_return. simpl. auto.
Qed.

(** X5: the states 0, 1, 2, 3, 4, 5, 6, 20 and 21 are closed under the
    switch: a call entered with one of them hands one of them back,
    whatever the input, and never reaches the [default:] branch, so it
    writes nothing on [stderr]. *)
Theorem known_states_are_closed sizeof_buf incoming sent0 buf0 in_state diag0 :
  known_state in_state →
  known_state (state_out (recv_nvt_line incoming sent0 buf0 sizeof_buf
                            in_state diag0))
  ∧ diag_out (recv_nvt_line incoming sent0 buf0 sizeof_buf in_state diag0)
    = diag0.
Proof.
  intros H. unfold recv_nvt_line.
  apply (nvt_loop_known sizeof_buf in_state incoming
           (nvt_init buf0 in_state sent0 diag0)); exact H.
Qed.

Lemma known_states_are_closed_witness :
  known_state (state_out (recv_nvt_line (bytes [255; 250; 24; 255]) [] (blank 256)
                            256 1 []))
  ∧ diag_out (recv_nvt_line (bytes [255; 250; 24; 255]) [] (blank 256) 256 1 [])
    = [].
Proof.
  apply (known_states_are_closed 256 (bytes [255; 250; 24; 255]) [] (blank 256) 1 []).
  right. left. reflexivity.
Defined.

(** ** The printers: what reaches the log *)

Lemma land_255_range c : 0 <= Z.land c 255 < 256.
Proof.
  change 255 with (Z.ones 8). rewrite Z.land_ones by lia.
  apply Z.mod_pos_bound. lia.
Qed.

Lemma hex_digit_range d :
  0 <= d < 16 →
  (48 <= hex_digit d <= 57 ∨ 97 <= hex_digit d <= 102)
  ∧ unhex (hex_digit d) = d.
Proof.
  intros H. unfold hex_digit, unhex. ztests; lia.
Qed.

Lemma hex_escape_harmless v : 0 <= v < 256 → Forall harmless (hex_escape v).
Proof.
  intros H. unfold hex_escape.
  assert (H1 : 0 <= v / 16 < 16)
    by (split; [apply Z.div_pos; lia | apply Z.div_lt_upper_bound; lia]).
  assert (H2 : 0 <= v mod 16 < 16) by (apply Z.mod_pos_bound; lia).
  destruct (hex_digit_range _ H1) as [K1 _].
  destruct (hex_digit_range _ H2) as [K2 _].
  repeat constructor; unfold harmless; lia.
Qed.

Lemma print_char_harmless c : is_byte c → Forall harmless (print_char c).
Proof.
  intros H. unfold print_char.
  destruct (is_blacklisted c) eqn:E.
  - apply hex_escape_harmless, land_255_range.
  - unfold is_blacklisted, isprint in E. rewrite land_byte in E by exact H.
    constructor; [|constructor]. unfold harmless, is_byte in *.
    revert E. ztests; simpl; intros E; try discriminate; lia.
Qed.

Lemma flat_map_harmless s :
  Forall is_byte s → Forall harmless (flat_map print_char s).
Proof.
  induction 1 as [|c s Hc Hs IH]; simpl; [constructor|].
  apply Forall_app. split; [apply print_char_harmless; exact Hc | exact IH].
Qed.

(** X6: whatever bytes a username or password holds, the text
    [print_string] writes for it consists of printable bytes only and holds
    no space, no comma, no single or double quote and no [<]: no control
    byte, line break or byte above 0x7E of the client reaches the log. *)
Theorem print_string_harmless s len :
  Forall is_byte s → Forall harmless (print_string [] s len).
Proof.
  intros Hs. rewrite print_string_flat_map. simpl.
  apply flat_map_harmless, Forall_take, Hs.
Qed.

Lemma print_string_harmless_witness :
  Forall harmless (print_string [] ([10; 13] ++ str "a b,c<'" ++ [200; 0]) 11).
Proof.
  apply (print_string_harmless ([10; 13] ++ str "a b,c<'" ++ [200; 0]) 11).
  repeat constructor; vm_compute; discriminate.
Defined.

Lemma unescape_print_char c tail :
  is_byte c → unescape (print_char c ++ tail) = c :: unescape tail.
Proof.
  intros H. unfold is_byte in H. unfold print_char.
  destruct (is_blacklisted c) eqn:E.
  - rewrite land_byte by exact H. unfold hex_escape.
    assert (H1 : 0 <= c / 16 < 16)
      by (split; [apply Z.div_pos; lia | apply Z.div_lt_upper_bound; lia]).
    assert (H2 : 0 <= c mod 16 < 16) by (apply Z.mod_pos_bound; lia).
    destruct (hex_digit_range _ H1) as [_ K1].
    destruct (hex_digit_range _ H2) as [_ K2].
    cbn [app unescape Z.eqb Pos.eqb]. rewrite K1, K2. f_equal.
    pose proof (Z.div_mod c 16). lia.
  - assert (Hc : (c =? 92) = false).
    { destruct (Z.eqb_spec c 92) as [-> |]; [|reflexivity].
      vm_compute in E. discriminate. }
    cbn [app unescape]. rewrite Hc. reflexivity.
Qed.

Lemma unescape_print_string s :
  Forall is_byte s → unescape (print_string [] s (Z.of_nat (length s))) = s.
Proof.
  intros Hs. rewrite print_string_flat_map, Nat2Z.id, firstn_all. simpl.
  induction Hs as [|c s Hc Hs IH]; [reflexivity|].
  simpl flat_map. rewrite unescape_print_char by exact Hc. rewrite IH.
  reflexivity.
Qed.

(** X7: the escaping loses nothing: two different byte strings are never
    written as the same text, because the written text can be read back
    (a backslash always opens an escape, the backslash itself being
    escaped). *)
Theorem print_string_injective s1 s2 :
  Forall is_byte s1 → Forall is_byte s2 → s1 ≠ s2 →
  print_string [] s1 (Z.of_nat (length s1))
  ≠ print_string [] s2 (Z.of_nat (length s2)).
Proof.
  intros H1 H2 Hne E. apply Hne.
  rewrite <- (unescape_print_string s1 H1), <- (unescape_print_string s2 H2), E.
  reflexivity.
Qed.

Lemma print_string_injective_witness :
  print_string [] (str "a,b") (Z.of_nat (length (str "a,b")))
  ≠ print_string [] (str "a\x2cb") (Z.of_nat (length (str "a\x2cb"))).
Proof.
  apply (print_string_injective (str "a,b") (str "a\x2cb")).
  - repeat constructor; vm_compute; discriminate.
  - repeat constructor; vm_compute; discriminate.
  - vm_compute. discriminate.
Defined.

Lemma harmless_count (x : Z) s :
  ¬ harmless x → Forall harmless s → count_occ Z.eq_dec s x = 0%nat.
Proof.
  intros Hx Hs. apply count_occ_not_In. intros Hin.
  rewrite List.Forall_forall in Hs. apply Hx, Hs, Hin.
Qed.

(** X8: a line of [print_csv] has exactly three fields: when the host name
    holds no comma and no line feed, the text written before the closing
    line feed holds exactly two commas and no line feed, whatever bytes the
    username and the password hold. *)
Theorem print_csv_three_fields out hostname login login_len password
    password_len :
  Forall is_byte login → Forall is_byte password →
  count_occ Z.eq_dec hostname 44 = 0%nat →
  count_occ Z.eq_dec hostname 10 = 0%nat →
  ∃ fields,
    print_csv (Some out) hostname login login_len password password_len
    = Some (out ++ fields ++ [10])
    ∧ count_occ Z.eq_dec fields 44 = 2%nat
    ∧ count_occ Z.eq_dec fields 10 = 0%nat.
Proof.
  intros Hl Hp Hh44 Hh10.
  assert (F1 : Forall harmless
                 (flat_map print_char (take (Z.to_nat login_len) login)))
    by (apply flat_map_harmless, Forall_take, Hl).
  assert (F2 : Forall harmless
                 (flat_map print_char (take (Z.to_nat password_len) password)))
    by (apply flat_map_harmless, Forall_take, Hp).
  set (f1 := flat_map print_char (take (Z.to_nat login_len) login)) in *.
  set (f2 := flat_map print_char (take (Z.to_nat password_len) password)) in *.
  assert (N44 : ¬ harmless 44) by (unfold harmless; lia).
  assert (N10 : ¬ harmless 10) by (unfold harmless; lia).
  exists (hostname ++ [44] ++ f1 ++ [44] ++ f2).
  split; [|split].
  - unfold print_csv. rewrite !print_string_flat_map. fold f1 f2.
    rewrite <- !app_assoc. reflexivity.
  - rewrite !count_occ_app, Hh44, (harmless_count 44 f1 N44 F1),
      (harmless_count 44 f2 N44 F2).
    reflexivity.
  - rewrite !count_occ_app, Hh10, (harmless_count 10 f1 N10 F1),
      (harmless_count 10 f2 N10 F2).
    reflexivity.
Qed.

Lemma print_csv_three_fields_witness :
  ∃ fields,
    print_csv (Some []) (str "1.2.3.4") (str "a,b" ++ [10]) 4 (str ",,") 2
    = Some ([] ++ fields ++ [10])
    ∧ count_occ Z.eq_dec fields 44 = 2%nat
    ∧ count_occ Z.eq_dec fields 10 = 0%nat.
Proof.
  apply (print_csv_three_fields [] (str "1.2.3.4") (str "a,b" ++ [10]) 4
           (str ",,") 2).
  - repeat constructor; vm_compute; discriminate.
  - repeat constructor; vm_compute; discriminate.
  - vm_compute. reflexivity.
  - vm_compute. reflexivity.
Defined.

(** [matches] in terms of the strings. *)
Lemma matches_exactly rhs lhs len :
  matches rhs lhs len = true
  ↔ len = Z.of_nat (length rhs) ∧ take (length rhs) lhs = rhs.
Proof.
  unfold matches, strlen. rewrite andb_true_iff, Z.eqb_eq, bool_decide_eq_true.
  split.
  - intros [Hlen Heq]. subst len. rewrite Nat2Z.id in Heq.
    rewrite firstn_all in Heq. split; [reflexivity | symmetry; exact Heq].
  - intros [Hlen Heq]. subst len. rewrite Nat2Z.id, firstn_all.
    split; [reflexivity | symmetry; exact Heq].
Qed.

Lemma matches_string rhs s :
  matches rhs s (Z.of_nat (length s)) = bool_decide (s = rhs).
Proof.
  destruct (matches rhs s (Z.of_nat (length s))) eqn:E.
  - apply matches_exactly in E as [Hlen Heq].
    apply Nat2Z.inj in Hlen. rewrite <- Hlen, firstn_all in Heq.
    symmetry. apply bool_decide_eq_true. exact Heq.
  - symmetry. apply bool_decide_eq_false. intros ->.
    assert (H : matches rhs rhs (Z.of_nat (length rhs)) = true)
      by (apply matches_exactly; rewrite firstn_all; auto).
    congruence.
Qed.

(** X10: [print_passwords] on an open stream leaves out the pairs shell/sh
    and enable/system and nothing else: every other pair, such as [shell]
    with another password, or [sh] as the user name, is written as the
    sanitized username, a space, the sanitized password and a line feed. *)
Theorem print_passwords_suppresses_exactly out login password :
  print_passwords (Some out) login (Z.of_nat (length login))
    password (Z.of_nat (length password))
  = if suppressed login password then Some out
    else Some (out ++ flat_map print_char login ++ [32]
               ++ flat_map print_char password ++ [10]).
Proof.
  unfold print_passwords, suppressed. rewrite !matches_string.
  rewrite !print_string_flat_map, !Nat2Z.id, !firstn_all, <- !app_assoc.
  destruct (bool_decide_reflect (login = str "shell")) as [L1|L1];
    destruct (bool_decide_reflect (password = str "sh")) as [P1|P1];
    destruct (bool_decide_reflect (login = str "enable")) as [L2|L2];
    destruct (bool_decide_reflect (password = str "system")) as [P2|P2];
    cbn [andb];
    first [ rewrite bool_decide_eq_true_2 by tauto
          | rewrite bool_decide_eq_false_2 by tauto ];
    reflexivity.
Qed.

(** ** handle_connection: how every session ends *)

Lemma nvt_normal_sent_grows sz c l :
  ∃ more, sent (nvt_normal sz c l) = sent l ++ more.
Proof.
  unfold nvt_normal. ztests; simpl; eauto using app_nil_r.
Qed.

Lemma nvt_byte_sent_grows sz c l : ∃ more, sent (nvt_byte sz c l) = sent l ++ more.
Proof.
  unfold nvt_byte.
  destruct ((state l =? 0) || (state l =? 1)); [apply nvt_normal_sent_grows|].
  exists []. rewrite app_nil_r.
  unfold nvt_iac, push_if_room.
  repeat match goal with
         | |- context [if ?b then _ else _] => destruct b
         end; reflexivity.
Qed.

Lemma nvt_loop_sent_grows sz ins incoming : ∀ l,
  ∃ more, sent_out (nvt_loop sz ins incoming l) = sent l ++ more.
Proof.
  induction incoming as [|r incoming IH]; intros l; simpl.
  - destruct (done l); simpl; [exists []; apply eq_sym, app_nil_r|].
    unfold nvt_no_byte, nvt_return. ztests; simpl;
      exists []; apply eq_sym, app_nil_r.
  - destruct (done l); simpl; [exists []; apply eq_sym, app_nil_r|].
    destruct r as [c| |].
    + destruct (nvt_byte_sent_grows sz c l) as [m1 H1].
      destruct (IH (nvt_byte sz c l)) as [m2 H2].
      exists (m1 ++ m2). rewrite H2, H1, app_assoc. reflexivity.
    + unfold nvt_no_byte, nvt_return. simpl. ztests; simpl;
        exists []; apply eq_sym, app_nil_r.
    + unfold nvt_no_byte, nvt_return. simpl.
      exists []. apply eq_sym, app_nil_r.
Qed.

Lemma session_ends_closed fuel peername :
  ∀ hello st tries login password w w',
  session fuel peername hello st tries login password w = Some w' →
  closed w' = true
  ∧ (∃ log, stderr w' = log ++ str "close," ++ peername ++ [10])
  ∧ (∃ more, outgoing w' = outgoing w ++ hello ++ more).
Proof.
  induction fuel as [|fuel IH]; intros hello st tries login password w w' H;
    [discriminate|].
  cbn [session] in H.
  set (w1 := session_send hello w) in *.
  set (r1 := session_recv w1 login st) in *.
  destruct (nvt_loop_sent_grows 256 st (incoming w1)
              (nvt_init login st (outgoing w1) (stderr w1))) as [m1 Hm1].
  change (sent_out r1 = (outgoing w ++ hello) ++ m1) in Hm1.
  clearbody r1.
  destruct (ret r1 <=? 0).
  { injection H as <-. unfold session_error, session_end, after_recv.
    cbn [closed stderr outgoing].
    split; [reflexivity|]. split; [match goal with |- ∃ log, ?a ++ _ = _ => exists a end; reflexivity|].
    exists m1. rewrite Hm1, <- app_assoc. reflexivity. }
  set (w3 := session_send password_prompt (after_recv w1 r1)) in *.
  set (st1 := if state_out r1 =? 0 then 1 else state_out r1) in *.
  set (r2 := session_recv w3 password st1) in *.
  destruct (nvt_loop_sent_grows 256 st1 (incoming w3)
              (nvt_init password st1 (outgoing w3) (stderr w3))) as [m2 Hm2].
  change (sent_out r2 = (sent_out r1 ++ password_prompt) ++ m2) in Hm2.
  clearbody r2.
  destruct (ret r2 <=? 0).
  { injection H as <-. unfold session_error, session_end, after_recv.
    cbn [closed stderr outgoing].
    split; [reflexivity|]. split; [match goal with |- ∃ log, ?a ++ _ = _ => exists a end; reflexivity|].
    exists (m1 ++ password_prompt ++ m2).
    rewrite Hm2, Hm1, <- !app_assoc. reflexivity. }
  destruct (tries <? 5).
  - apply IH in H as (Hc & Hlog & more & Hout).
    split; [exact Hc|]. split; [exact Hlog|].
    exists (m1 ++ password_prompt ++ m2 ++ login_incorrect ++ hello_again ++ more).
    rewrite Hout. unfold session_send, after_recv. cbn [outgoing].
    rewrite Hm2, Hm1, <- !app_assoc. reflexivity.
  - injection H as <-. unfold session_end, session_send, after_recv.
    cbn [closed stderr outgoing].
    split; [reflexivity|]. split; [exists (diag_out r2); reflexivity|].
    exists (m1 ++ password_prompt ++ m2 ++ login_incorrect).
    rewrite Hm2, Hm1, <- !app_assoc. reflexivity.
Qed.

Lemma handle_connection_ends_closed peername login password w w' :
  handle_connection peername login password w = Some w' →
  closed w' = true
  ∧ (∃ log, stderr w' = log ++ str "close," ++ peername ++ [10])
  ∧ (∃ more, outgoing w' = outgoing w ++ hello_first ++ more).
Proof. apply session_ends_closed. Qed.

(** X11: the socket is closed on every way out of [handle_connection].
    Whenever a session ends, by a read that gives no byte or an empty line
    at either prompt or after the last permitted attempt, the socket has
    been closed, the last line on [stderr] is [close,<peer>], and the bytes
    sent on the socket start with the greeting (the four telnet options and
    the login prompt). Nothing is said of a client that keeps a read busy
    for ever. *)
Theorem session_exit_closes_socket peername login password client w' :
  handle_connection peername login password (connect client) = Some w' →
  closed w' = true
  ∧ (∃ log, stderr w' = log ++ str "close," ++ peername ++ [10])
  ∧ (∃ more, outgoing w' = hello_first ++ more).
Proof.
  intros H. apply handle_connection_ends_closed in H. exact H.
Qed.

Lemma session_exit_closes_socket_witness :
  ∃ w', handle_connection (str "1.2.3.4") (blank 256) (blank 256)
          (connect (bytes (str "root" ++ [13] ++ str "pw") ++ [RecvError]))
        = Some w'
        ∧ closed w' = true
        ∧ (∃ log, stderr w' = log ++ str "close," ++ str "1.2.3.4" ++ [10])
        ∧ (∃ more, outgoing w' = hello_first ++ more).
Proof.
  eexists. split; [vm_compute; reflexivity|].
  apply (session_exit_closes_socket (str "1.2.3.4") (blank 256) (blank 256)
           (bytes (str "root" ++ [13] ++ str "pw") ++ [RecvError])).
  vm_compute. reflexivity.
Defined.

Lemma print_char_no_newline c : count_occ Z.eq_dec (print_char c) 10 = 0%nat.
Proof.
  unfold print_char. destruct (is_blacklisted c) eqn:E.
  - apply harmless_count; [unfold harmless; lia|].
    apply hex_escape_harmless, land_255_range.
  - simpl. destruct (Z.eq_dec c 10) as [-> |]; [|reflexivity].
    vm_compute in E. discriminate.
Qed.

Lemma print_string_newlines out s len :
  count_occ Z.eq_dec (print_string out s len) 10 = count_occ Z.eq_dec out 10.
Proof.
  rewrite print_string_flat_map, count_occ_app.
  generalize (take (Z.to_nat len) s) as t.
  induction t as [|c t IH]; simpl; [lia|].
  rewrite count_occ_app, print_char_no_newline in *. simpl. exact IH.
Qed.

(** Every call of [print_csv] on an open stream adds one line. *)
Lemma print_csv_one_line out hostname login login_len password password_len :
  count_occ Z.eq_dec hostname 10 = 0%nat →
  ∃ text,
    print_csv (Some out) hostname login login_len password password_len
    = Some (out ++ text)
    ∧ count_occ Z.eq_dec text 10 = 1%nat.
Proof.
  intros Hh. unfold print_csv. rewrite !print_string_flat_map.
  eexists. split; [rewrite <- !app_assoc; reflexivity|].
  pose proof (print_string_newlines [] login login_len) as H1.
  pose proof (print_string_newlines [] password password_len) as H2.
  rewrite print_string_flat_map in H1, H2. simpl in H1, H2.
  rewrite !count_occ_app, Hh, H1, H2. reflexivity.
Qed.

Lemma session_records_bounded fuel peername :
  count_occ Z.eq_dec peername 10 = 0%nat →
  ∀ hello st tries login password w w' out,
  tries <= 5 → stdout w = Some out →
  session fuel peername hello st tries login password w = Some w' →
  ∃ text, stdout w' = Some (out ++ text)
          ∧ Z.of_nat (count_occ Z.eq_dec text 10) <= 6 - tries.
Proof.
  intros Hh.
  induction fuel as [|fuel IH];
    intros hello st tries login password w w' out Ht Hout H; [discriminate|].
  cbn [session] in H.
  set (w1 := session_send hello w) in *.
  set (r1 := session_recv w1 login st) in *. clearbody r1.
  destruct (ret r1 <=? 0).
  { injection H as <-. exists []. rewrite app_nil_r.
    split; [exact Hout | simpl; lia]. }
  set (w3 := session_send password_prompt (after_recv w1 r1)) in *.
  set (st1 := if state_out r1 =? 0 then 1 else state_out r1) in *.
  set (r2 := session_recv w3 password st1) in *. clearbody r2.
  destruct (ret r2 <=? 0).
  { injection H as <-. exists []. rewrite app_nil_r.
    split; [exact Hout | simpl; lia]. }
  change (stdout (after_recv w3 r2)) with (stdout w) in H. rewrite Hout in H.
  destruct (print_csv_one_line out peername (buf_out r1) (ret r1) (buf_out r2)
              (ret r2) Hh) as (text & Hcsv & Hone).
  rewrite Hcsv in H.
  destruct (Z.ltb_spec tries 5).
  - eapply IH in H as (text' & Hstd & Hcount); [| lia | reflexivity].
    exists (text ++ text'). rewrite Hstd, app_assoc. split; [reflexivity|].
    rewrite count_occ_app. lia.
  - injection H as <-. exists text. split; [reflexivity|]. lia.
Qed.

Lemma handle_connection_records_bounded peername login password w w' out :
  count_occ Z.eq_dec peername 10 = 0%nat → stdout w = Some out →
  handle_connection peername login password w = Some w' →
  ∃ text, stdout w' = Some (out ++ text)
          ∧ Z.of_nat (count_occ Z.eq_dec text 10) <= 6 - 0.
Proof.
  intros Hh Hout. apply session_records_bounded; [exact Hh | lia | exact Hout].
Qed.

(** X12: no session writes more than six lines to [stdout], whatever the
    client sends and however long it keeps answering: what was on the
    stream stays, and at most six line feeds are added (the name of the
    peer holding none). *)
Theorem at_most_six_records peername login password client :
  count_occ Z.eq_dec peername 10 = 0%nat →
  ∃ w' text,
    handle_connection peername login password (connect client) = Some w'
    ∧ stdout w' = Some text
    ∧ (count_occ Z.eq_dec text 10%Z <= 6)%nat.
Proof.
  intros Hh.
  destruct (handle_connection_total peername login password (connect client))
    as [w' H].
  destruct (handle_connection_records_bounded peername login password
              (connect client) w' [] Hh eq_refl H) as (text & Hstd & Hcount).
  exists w', text. split; [exact H|]. split; [exact Hstd | lia].
Qed.

Lemma at_most_six_records_witness :
  ∃ w' text,
    handle_connection (str "1.2.3.4") (blank 256) (blank 256)
      (connect (bytes (concat (replicate 9 (str "a" ++ [13] ++ [10; 44] ++ [13])))))
    = Some w'
    ∧ stdout w' = Some text
    ∧ (count_occ Z.eq_dec text 10%Z <= 6)%nat.
Proof.
  apply (at_most_six_records (str "1.2.3.4") (blank 256) (blank 256)
           (bytes (concat (replicate 9 (str "a" ++ [13] ++ [10; 44] ++ [13]))))).
  vm_compute. reflexivity.
Defined.

Lemma session_recv_empty w buf0 st rest :
  normal st → incoming w = RecvByte 13 :: rest →
  session_recv w buf0 st
  = NvtResult 0 buf0 st (outgoing w) rest (stderr w).
Proof.
  intros Hs Hin. unfold session_recv, recv_nvt_line. rewrite Hin.
  cbn [nvt_loop nvt_init done].
  rewrite nvt_byte_cr by exact Hs.
  rewrite nvt_loop_finished by reflexivity. reflexivity.
Qed.

Lemma session_empty_login fuel peername hello st tries login password w rest :
  normal st → incoming w = RecvByte 13 :: rest →
  session (S fuel) peername hello st tries login password w
  = Some (session_error peername
            (World rest (outgoing w ++ hello) (stdout w) (stderr w) (closed w))).
Proof.
  intros Hs Hin. cbn [session].
  rewrite (session_recv_empty _ login st rest) by assumption.
  reflexivity.
Qed.

Lemma session_empty_password fuel peername hello tries login password w u rest :
  Forall plain u → u ≠ [] → Z.of_nat (length u) < 256 →
  256 <= Z.of_nat (length login) →
  incoming w = bytes u ++ RecvByte 13 :: RecvByte 13 :: rest →
  session (S fuel) peername hello 0 tries login password w
  = Some (session_error peername
            (World rest
               (outgoing w ++ hello ++ flat_map echo u ++ password_prompt)
               (stdout w) (stderr w) (closed w))).
Proof.
  intros Hu Hne Hlen Hlogin Hin. cbn [session].
  set (w1 := session_send hello w).
  destruct (session_recv_plain w1 login 0 u (RecvByte 13 :: rest))
    as (R1 & L1 & S1 & I1 & O1 & B1 & D1); auto; [left; reflexivity|].
  set (r1 := session_recv w1 login 0) in *. clearbody r1.
  assert (Hu0 : (Z.of_nat (length u) <=? 0) = false).
  { apply Z.leb_gt. destruct u; [contradiction | simpl; lia]. }
  rewrite R1, Hu0, S1. cbn [Z.eqb].
  rewrite (session_recv_empty _ password 1 rest)
    by (auto; right; reflexivity).
  cbn [ret Z.leb Z.compare].
  unfold session_send, after_recv. cbn [outgoing stdout stderr incoming closed].
  rewrite O1, D1. unfold w1, session_send, echoes.
  cbn [outgoing stderr Z.eqb]. rewrite <- !app_assoc. reflexivity.
Qed.

(** X13: an empty answer ends the session like a lost connection. A client
    whose first byte is CR is sent the greeting and nothing more; a client
    that gives a username and then an empty password is sent the password
    prompt and nothing more. Either way no [Login incorrect] is sent,
    nothing is written to [stdout], the socket is closed and the input
    after the CR stays unread. *)
Theorem empty_line_ends_session peername login password u rest :
  Forall plain u → u ≠ [] → Z.of_nat (length u) < 256 →
  256 <= Z.of_nat (length login) →
  (∃ w', handle_connection peername login password
           (connect (RecvByte 13 :: rest)) = Some w'
         ∧ outgoing w' = hello_first ∧ stdout w' = Some []
         ∧ incoming w' = rest ∧ closed w' = true)
  ∧ (∃ w', handle_connection peername login password
             (connect (bytes u ++ RecvByte 13 :: RecvByte 13 :: rest)) = Some w'
           ∧ outgoing w' = hello_first ++ flat_map echo u ++ password_prompt
           ∧ stdout w' = Some []
           ∧ incoming w' = rest ∧ closed w' = true).
Proof.
  intros Hu Hne Hlen Hlogin. unfold handle_connection. split.
  - rewrite (session_empty_login 5 peername hello_first 0 0 login password
               (connect (RecvByte 13 :: rest)) rest)
      by (reflexivity || (left; reflexivity)).
    eexists. split; [reflexivity|]. repeat split; reflexivity.
  - rewrite (session_empty_password 5 peername hello_first 0 login password
               (connect (bytes u ++ RecvByte 13 :: RecvByte 13 :: rest)) u rest)
      by (assumption || reflexivity).
    eexists. split; [reflexivity|]. repeat split; reflexivity.
Qed.

Lemma empty_line_ends_session_witness :
  (∃ w', handle_connection (str "1.2.3.4") (blank 256) (blank 256)
           (connect (RecvByte 13 :: bytes (str "root"))) = Some w'
         ∧ outgoing w' = hello_first ∧ stdout w' = Some []
         ∧ incoming w' = bytes (str "root") ∧ closed w' = true)
  ∧ (∃ w', handle_connection (str "1.2.3.4") (blank 256) (blank 256)
             (connect (bytes (str "root") ++ RecvByte 13 :: RecvByte 13
                       :: bytes (str "root")))
           = Some w'
           ∧ outgoing w' = hello_first ++ flat_map echo (str "root")
                           ++ password_prompt
           ∧ stdout w' = Some []
           ∧ incoming w' = bytes (str "root") ∧ closed w' = true).
Proof.
  apply (empty_line_ends_session (str "1.2.3.4") (blank 256) (blank 256)
           (str "root") (bytes (str "root"))).
  - repeat constructor; vm_compute; discriminate.
  - discriminate.
  - vm_compute. reflexivity.
  - vm_compute. discriminate.
Defined.

(** ** main: the port it serves on *)

Lemma main_loop_port_fuel strtoul n : ∀ args port,
  (length args <= n)%nat →
  match main_loop strtoul args port with
  | Serve p => p = port ∨ 1 <= p <= 65535
  | Exit status _ => status = 1
  end.
Proof.
  induction n as [|n IH]; intros args port Hn.
  { destruct args; [left; reflexivity | simpl in Hn; lia]. }
  destruct args as [|a rest]; [left; reflexivity|].
  simpl in Hn. cbn [main_loop].
  assert (Hset : ∀ arg tl, (length tl <= n)%nat →
            match set_port strtoul arg (main_loop strtoul tl) with
            | Serve p => p = port ∨ 1 <= p <= 65535
            | Exit status _ => status = 1
            end).
  { intros arg tl Hlt. unfold set_port.
    destruct (Z.ltb_spec (strtoul arg) 1); [reflexivity|].
    destruct (Z.ltb_spec 65535 (strtoul arg)); [reflexivity|]. cbn [orb].
    specialize (IH tl (strtoul arg) Hlt).
    destruct (main_loop strtoul tl (strtoul arg)); [exact IH|].
    destruct IH as [-> | IH]; right; lia. }
  destruct (negb (char_at a 0 =? 45)); [reflexivity|].
  destruct (char_at a 1 =? 108).
  - destruct (isdigit (char_at a 2)).
    + apply Hset. lia.
    + destruct rest as [|b rest']; [reflexivity|]. apply Hset.
      simpl in Hn. lia.
  - destruct ((char_at a 1 =? 104) || (char_at a 1 =? 63) || (char_at a 1 =? 72));
      [reflexivity|].
    apply IH. lia.
Qed.

Lemma main_loop_port strtoul args port :
  match main_loop strtoul args port with
  | Serve p => p = port ∨ 1 <= p <= 65535
  | Exit status _ => status = 1
  end.
Proof. apply (main_loop_port_fuel strtoul (length args)). lia. Qed.

(** X14: whatever the command line and whatever [strtoul] makes of the
    argument of [-l], [main] either exits with status 1 or calls
    [daemon_thread] with the default port 23 or a port in 1..65535; it
    never serves on port 0 or on a port above 65535. *)
Theorem main_port_in_range strtoul argv :
  match main strtoul argv with
  | Serve p => p = 23 ∨ 1 <= p <= 65535
  | Exit status _ => status = 1
  end.
Proof. apply main_loop_port. Qed.

(** X15: the two spellings of the port option agree: [-lNNN] in one
    argument is treated exactly like [-l] followed by the argument [NNN],
    for every argument [NNN] that starts with a digit, whatever the other
    arguments are. *)
Theorem port_option_spellings strtoul n rest port :
  isdigit (char_at n 0) = true →
  main_loop strtoul ((str "-l" ++ n) :: rest) port
  = main_loop strtoul (str "-l" :: n :: rest) port.
Proof.
  intros Hd. cbn [main_loop].
  change (char_at (str "-l" ++ n) 0) with 45.
  change (char_at (str "-l" ++ n) 1) with 108.
  change (char_at (str "-l" ++ n) 2) with (char_at n 0).
  change (char_at (str "-l") 0) with 45.
  change (char_at (str "-l") 1) with 108.
  change (char_at (str "-l") 2) with 0.
  rewrite Hd. reflexivity.
Qed.

Lemma port_option_spellings_witness :
  main_loop decimal ((str "-l" ++ str "2323") :: [str "-x"]) 23
  = main_loop decimal (str "-l" :: str "2323" :: [str "-x"]) 23
  ∧ main decimal [str "telnetlogger"; str "-l2323"; str "-x"] = Serve 2323.
Proof.
  split.
  - apply (port_option_spellings decimal (str "2323") [str "-x"] 23).
    vm_compute. reflexivity.
  - vm_compute. reflexivity.
Defined.

(** ** daemon_thread: the name of the peer *)

Lemma cstring_nonzero buf : Forall (fun c => c ≠ 0) (cstring buf).
Proof.
  induction buf as [|c tl IH]; simpl; [constructor|].
  destruct (Z.eqb_spec c 0); [constructor|]. constructor; assumption.
Qed.

Lemma cstring_app a b :
  Forall (fun c => c ≠ 0) a → cstring (a ++ b) = a ++ cstring b.
Proof.
  induction 1 as [|c a Hc Ha IH]; simpl; [reflexivity|].
  destruct (Z.eqb_spec c 0); [contradiction|]. rewrite IH. reflexivity.
Qed.

(** A terminated array is its string, the NUL, and what lies behind. *)
Lemma cstring_split buf :
  0 ∈ buf → ∃ rest, buf = cstring buf ++ 0 :: rest.
Proof.
  induction buf as [|c tl IH]; intros Hin; [inversion Hin|].
  simpl. destruct (Z.eqb_spec c 0) as [-> |Hc].
  - exists tl. reflexivity.
  - apply elem_of_cons in Hin as [Hin|Hin]; [congruence|].
    destruct (IH Hin) as [rest Hrest]. exists rest. simpl.
    rewrite <- Hrest. reflexivity.
Qed.

Lemma cstring_stop a rest :
  Forall (fun c => c ≠ 0) a → cstring (a ++ 0 :: rest) = a.
Proof.
  intros Ha. rewrite cstring_app by exact Ha. simpl. apply app_nil_r.
Qed.

(** X16: the peer name is a NUL-terminated string in a fixed array. When
    it starts with [::ffff:] the two lines after [getnameinfo] leave in the
    array the same string without these seven bytes, still terminated and
    in an array of the same size; every other name is left as it is. *)
Theorem strip_mapped_cstring peername :
  0 ∈ peername →
  length (strip_mapped peername) = length peername
  ∧ cstring (strip_mapped peername)
    = (if bool_decide (take 7 (cstring peername) = str "::ffff:")
       then drop 7 (cstring peername) else cstring peername).
Proof.
  intros Hnul. unfold strip_mapped.
  assert (Hpre : Forall (fun c => c ≠ 0) (str "::ffff:"))
    by (repeat constructor; discriminate).
  destruct (bool_decide_reflect (take 7 peername = str "::ffff:")) as [E|E].
  - assert (Hp : peername = str "::ffff:" ++ drop 7 peername)
      by (rewrite <- E; symmetry; apply take_drop).
    assert (Hnul7 : 0 ∈ drop 7 peername).
    { rewrite Hp in Hnul. apply elem_of_app in Hnul as [Hnul|Hnul]; [|exact Hnul].
      exfalso. pose proof Hpre as Hall. rewrite List.Forall_forall in Hall.
      apply (Hall 0); [apply list_elem_of_In; exact Hnul | reflexivity]. }
    destruct (cstring_split _ Hnul7) as [rest Hrest].
    set (host := cstring (drop 7 peername)) in *.
    assert (Hc : cstring peername = str "::ffff:" ++ host).
    { rewrite Hp at 1. rewrite cstring_app by exact Hpre. reflexivity. }
    rewrite Hc.
    rewrite bool_decide_eq_true_2 by reflexivity.
    change (drop 7 (str "::ffff:" ++ host)) with host.
    unfold memmove_front.
    assert (Ht : take (length host + 1) (drop 7 peername) = host ++ [0]).
    { rewrite Hrest. rewrite cons_middle, app_assoc.
      apply take_app_length'. rewrite length_app. simpl. lia. }
    rewrite Ht. split.
    + pose proof (f_equal length Hp) as Hl1.
      pose proof (f_equal length Hrest) as Hl2.
      rewrite length_app in Hl1, Hl2. simpl in Hl1, Hl2.
      rewrite !length_app, length_drop. simpl. lia.
    + rewrite <- app_assoc. simpl. apply cstring_stop, cstring_nonzero.
  - split; [reflexivity|].
    rewrite bool_decide_eq_false_2; [reflexivity|].
    intros E'. apply E.
    destruct (cstring_split _ Hnul) as [rest Hrest].
    rewrite Hrest. rewrite take_app_le; [exact E'|].
    apply (f_equal length) in E'. rewrite length_take in E'.
    change (length (str "::ffff:")) with 7%nat in E'. lia.
Qed.

Lemma strip_mapped_cstring_witness :
  cstring (strip_mapped (str "::ffff:192.0.2.7" ++ replicate 240 0))
  = str "192.0.2.7"
  ∧ (length (strip_mapped (str "::ffff:192.0.2.7" ++ replicate 240 0))
     = length (str "::ffff:192.0.2.7" ++ replicate 240 0)
     ∧ cstring (strip_mapped (str "::ffff:192.0.2.7" ++ replicate 240 0))
       = (if bool_decide (take 7 (cstring (str "::ffff:192.0.2.7" ++ replicate 240 0))
                          = str "::ffff:")
          then drop 7 (cstring (str "::ffff:192.0.2.7" ++ replicate 240 0))
          else cstring (str "::ffff:192.0.2.7" ++ replicate 240 0))).
Proof.
  split; [vm_compute; reflexivity|].
  apply (strip_mapped_cstring (str "::ffff:192.0.2.7" ++ replicate 240 0)).
  apply elem_of_app. right. left.
Defined.

(** ** recv_nvt_line and handle_connection: echo and overlong lines *)

Lemma flat_map_echo_verbatim bs :
  Forall (fun c => 26 < c) bs → flat_map echo bs = bs.
Proof.
  induction 1 as [|c bs Hc Hbs IH]; [reflexivity|].
  simpl. rewrite IH. unfold echo.
  replace (c <=? 26) with false by (symmetry; apply Z.leb_gt; exact Hc).
  reflexivity.
Qed.

(** X17: in state 0 the client is sent back exactly what it typed: a line
    of bytes above 26 other than DEL and IAC that fits the buffer is
    echoed byte for byte, and the CR that ends it is not echoed. *)
Theorem typed_line_echoed_verbatim bs rest sent0 buf0 sizeof_buf diag0 :
  Forall (fun c => 26 < c ∧ c ≠ 127 ∧ c ≠ 255) bs →
  Z.of_nat (length bs) < sizeof_buf →
  sizeof_buf <= Z.of_nat (length buf0) →
  sent_out (recv_nvt_line (bytes bs ++ RecvByte 13 :: rest) sent0 buf0
              sizeof_buf 0 diag0)
  = sent0 ++ bs.
Proof.
  intros Hbs Hfit Hbuf.
  assert (Hp : Forall plain bs).
  { induction Hbs as [|c bs (H1 & H2 & H3) _ IH]; constructor;
      [unfold plain; lia | apply IH; simpl in Hfit; lia]. }
  assert (Hv : Forall (fun c => 26 < c) bs).
  { clear Hfit Hp. induction Hbs as [|c bs (H1 & _) _ IH]; constructor;
      assumption. }
  destruct (nvt_line_plain bs rest sent0 buf0 sizeof_buf 0 diag0)
    as (_ & _ & _ & _ & Hsent & _); auto; [left; reflexivity|].
  rewrite Hsent. unfold echoes. cbn [Z.eqb].
  rewrite flat_map_echo_verbatim by exact Hv. reflexivity.
Qed.

Lemma typed_line_echoed_verbatim_witness :
  sent_out (recv_nvt_line (bytes (str "root") ++ RecvByte 13 :: []) (str "login: ")
              (blank 256) 256 0 [])
  = str "login: " ++ str "root".
Proof.
  apply (typed_line_echoed_verbatim (str "root") [] (str "login: ") (blank 256)
           256 []).
  - repeat constructor; vm_compute; discriminate || reflexivity.
  - vm_compute. reflexivity.
  - vm_compute. discriminate.
Defined.

(** A call on a line that fills the buffer: the byte that finds it full
    completes the line and is lost. *)
Lemma nvt_line_overflow u c rest sent0 buf0 sizeof_buf in_state diag0 :
  normal in_state → Forall plain u → plain c →
  Z.of_nat (length u) = sizeof_buf - 1 →
  sizeof_buf <= Z.of_nat (length buf0) →
  let r := recv_nvt_line (bytes u ++ RecvByte c :: rest) sent0 buf0
             sizeof_buf in_state diag0 in
  ret r = Z.of_nat (length u) ∧ line r = u ∧ state_out r = in_state
  ∧ rest_out r = rest ∧ sent_out r = sent0 ++ echoes in_state (u ++ [c])
  ∧ length (buf_out r) = length buf0 ∧ diag_out r = diag0.
Proof.
  intros Hs Hu Hc Hlen Hbuf. cbn zeta. unfold recv_nvt_line.
  destruct (nvt_run_plain sizeof_buf u (nvt_init buf0 in_state sent0 diag0))
    as (Ho & Hst & Hdn & Hct & Hln & Hsn & Hdg); simpl; try assumption; try lia.
  rewrite nvt_loop_bytes by exact Hdn.
  set (l := nvt_run sizeof_buf u (nvt_init buf0 in_state sent0 diag0)) in *.
  simpl in Ho, Hst, Hct, Hln, Hsn, Hdg.
  simpl nvt_loop. rewrite Hdn.
  rewrite nvt_byte_plain by (rewrite ?Hst; assumption). cbn zeta.
  replace (offset l + 1 <? sizeof_buf) with false
    by (symmetry; apply Z.ltb_ge; lia).
  assert (He : echoes in_state (u ++ [c])
               = echoes in_state u ++ echoes in_state [c]).
  { unfold echoes. destruct (in_state =? 0); [|reflexivity].
    rewrite flat_map_app. reflexivity. }
  rewrite He, app_assoc, <- Hsn. unfold echoes. rewrite Hst.
  destruct (in_state =? 0);
    (rewrite nvt_loop_finished by reflexivity);
    unfold line, nvt_return; simpl; rewrite ?app_nil_r;
    repeat split; auto.
Qed.

Lemma session_recv_overflow w buf0 st u c rest :
  normal st → Forall plain u → plain c → Z.of_nat (length u) = 255 →
  256 <= Z.of_nat (length buf0) →
  incoming w = bytes u ++ RecvByte c :: rest →
  let r := session_recv w buf0 st in
  ret r = Z.of_nat (length u) ∧ line r = u ∧ state_out r = st
  ∧ rest_out r = rest ∧ sent_out r = outgoing w ++ echoes st (u ++ [c])
  ∧ length (buf_out r) = length buf0 ∧ diag_out r = stderr w.
Proof.
  intros Hs Hu Hc Hlen Hbuf Hin. cbn zeta. unfold session_recv. rewrite Hin.
  apply nvt_line_overflow; auto; lia.
Qed.

(** One pass in which the username fills the array. *)
Lemma session_spill fuel peername hello tries login password w u c p rest :
  Forall plain u → plain c → Forall plain p →
  Z.of_nat (length u) = 255 → p ≠ [] → Z.of_nat (length p) < 256 →
  256 <= Z.of_nat (length login) → 256 <= Z.of_nat (length password) →
  incoming w = bytes u ++ RecvByte c :: bytes p ++ RecvByte 13 :: rest →
  ∃ login' password',
    session (S fuel) peername hello 0 tries login password w =
      let w' :=
        World rest
          (outgoing w ++ hello ++ flat_map echo (u ++ [c]) ++ password_prompt
           ++ login_incorrect)
          (print_csv (stdout w) peername u (Z.of_nat (length u))
                     p (Z.of_nat (length p)))
          (stderr w) (closed w) in
      if tries <? 5 then
        session fuel peername hello_again 0 (tries + 1) login' password' w'
      else Some (session_end peername w').
Proof.
  intros Hu Hc Hp Hulen Hpne Hplen Hlogin Hpassword Hin.
  set (w1 := session_send hello w).
  destruct (session_recv_overflow w1 login 0 u c (bytes p ++ RecvByte 13 :: rest))
    as (R1 & L1 & S1 & I1 & O1 & B1 & D1); auto; [left; reflexivity|].
  set (r1 := session_recv w1 login 0) in *.
  set (w3 := session_send password_prompt (after_recv w1 r1)).
  destruct (session_recv_plain w3 password 1 p rest)
    as (R2 & L2 & S2 & I2 & O2 & B2 & D2); auto; [right; reflexivity|].
  set (r2 := session_recv w3 password 1) in *.
  exists (buf_out r1), (buf_out r2).
  cbn [session]. fold w1. fold r1. rewrite S1. cbn [Z.eqb].
  fold w3. fold r2. rewrite S2. cbn [Z.eqb Pos.eqb].
  assert (Hu0 : (Z.of_nat (length u) <=? 0) = false) by (apply Z.leb_gt; lia).
  assert (Hp0 : (Z.of_nat (length p) <=? 0) = false).
  { apply Z.leb_gt. destruct p; [contradiction | simpl; lia]. }
  rewrite R1, Hu0, R2, Hp0.
  unfold line in L1, L2. rewrite R1 in L1. rewrite R2 in L2.
  rewrite (print_csv_lines _ _ (buf_out r1) _ (buf_out r2) _ u p L1 L2).
  unfold session_send, after_recv. cbn [incoming outgoing stdout stderr closed].
  rewrite I2, O2, D2. unfold w3, session_send, after_recv.
  cbn [incoming outgoing stdout stderr closed].
  rewrite O1, D1. unfold w1, session_send.
  cbn [incoming outgoing stdout stderr closed].
  unfold echoes. cbn [Z.eqb Pos.eqb]. rewrite app_nil_r, <- !app_assoc.
  reflexivity.
Qed.

(** X18: a username longer than the array turns into a username and a
    password. When a client sends, as one line, 255 plain bytes, one more
    plain byte and then a non-empty rest of fewer than 256 plain bytes, the
    first read returns the 255 bytes and loses the next one, the read after
    the password prompt takes the rest of the same line as the password,
    and the pair is written to [stdout] although the client never answered
    the password prompt. *)
Theorem long_username_spills_into_password peername login password u c p :
  Forall plain u → plain c → Forall plain p →
  Z.of_nat (length u) = 255 → p ≠ [] → Z.of_nat (length p) < 256 →
  256 <= Z.of_nat (length login) → 256 <= Z.of_nat (length password) →
  ∃ w', handle_connection peername login password
          (connect (bytes (u ++ [c] ++ p) ++ [RecvByte 13])) = Some w'
        ∧ stdout w' = print_csv (Some []) peername u 255 p (Z.of_nat (length p))
        ∧ incoming w' = [] ∧ closed w' = true.
Proof.
  intros Hu Hc Hp Hulen Hpne Hplen Hlogin Hpassword.
  unfold handle_connection.
  destruct (session_spill 5 peername hello_first 0 login password
              (connect (bytes (u ++ [c] ++ p) ++ [RecvByte 13])) u c p [])
    as (login' & password' & Hpass); auto.
  { cbn [incoming connect]. rewrite !bytes_app, <- !app_assoc. reflexivity. }
  rewrite Hpass. cbn zeta. cbn [Z.ltb Z.compare].
  rewrite session_closed by reflexivity.
  eexists. split; [reflexivity|].
  cbn [stdout incoming closed session_error session_end connect].
  rewrite Hulen. repeat split; reflexivity.
Qed.

Lemma long_username_spills_into_password_witness :
  ∃ w', handle_connection (str "1.2.3.4") (blank 256) (blank 256)
          (connect (bytes (replicate 255 97 ++ [98] ++ str "cd") ++ [RecvByte 13]))
        = Some w'
        ∧ stdout w' = print_csv (Some []) (str "1.2.3.4") (replicate 255 97) 255
                        (str "cd") (Z.of_nat (length (str "cd")))
        ∧ incoming w' = [] ∧ closed w' = true.
Proof.
  assert (Ha : ∀ c, (c =? 255) || (c =? 0) || (c =? 10) || (c =? 13)
                    || (c =? 127) || (c =? 3) || (c =? 4) = false → plain c).
  { intros c H. unfold plain. revert H. ztests; simpl; intros H;
      try discriminate; lia. }
  apply (long_username_spills_into_password (str "1.2.3.4") (blank 256)
           (blank 256) (replicate 255 97) 98 (str "cd")).
  - apply Forall_replicate, Ha. reflexivity.
  - apply Ha. reflexivity.
  - repeat constructor; apply Ha; reflexivity.
  - vm_compute. reflexivity.
  - discriminate.
  - vm_compute. reflexivity.
  - vm_compute. discriminate.
  - vm_compute. discriminate.
Defined.
